(** * ChakraCore [tools/configure_icu.py]: a shallow embedding

    The script parses ICU's [Makefile.in] fragments into source lists, lists
    header directories, writes an MSBuild property file and downloads and
    verifies the ICU archive.  Python strings are [string]s of 8-bit
    characters, Python exceptions are values of [exn], and every function
    that can raise returns [exn + A].  The file system, the network and
    [os.path] are parameters of the functions that use them. *)

From Stdlib Require Import String Ascii List ZArith Bool Lia.
Import ListNotations.

Local Open Scope string_scope.
Local Open Scope Z_scope.

(** ** Exceptions and the error monad *)

Inductive exn : Type :=
| Exception (args : list string)
| TypeError (msg : string)
| IndexError (msg : string)
| ValueError (msg : string)
| IOError (path : string)
| UnicodeDecodeError
| SystemExit (code : Z).

Definition result (A : Type) : Type := (exn + A)%type.

Definition ret {A} (a : A) : result A := inr a.
Definition raise {A} (e : exn) : result A := inl e.

Definition bind {A B} (m : result A) (k : A -> result B) : result B :=
  match m with
  | inl e => inl e
  | inr a => k a
  end.

Notation "x <- m ;; k" := (bind m (fun x => k))
  (at level 61, m at next level, right associativity).

(** [map f xs] of Python 2 is eager: the first call that raises aborts it. *)
Fixpoint mapM {A B} (f : A -> result B) (xs : list A) : result (list B) :=
  match xs with
  | [] => ret []
  | x :: xs' => y <- f x ;; ys <- mapM f xs' ;; ret (y :: ys)
  end.

(** [filter(lambda x: x != None, xs)] *)
Fixpoint filter_not_none {A} (xs : list (option A)) : list A :=
  match xs with
  | [] => []
  | Some a :: xs' => a :: filter_not_none xs'
  | None :: xs' => filter_not_none xs'
  end.

(** ** Python [str] operations used by the script *)

Module Py.

Definition chars : string -> list ascii := list_ascii_of_string.
Definition str : list ascii -> string := string_of_list_ascii.

Definition len (s : string) : Z := Z.of_nat (String.length s).

(** A slice bound [i] of a sequence of length [n]: negative bounds count from
    the end, and every bound is clamped to [0 .. n]. *)
Definition clamp (n i : Z) : nat :=
  Z.to_nat (if i <? 0 then Z.max 0 (n + i) else Z.min i n).

(** [s[i:]] *)
Definition slice_from (s : string) (i : Z) : string :=
  str (skipn (clamp (len s) i) (chars s)).

(** [s[:i]] *)
Definition slice_to (s : string) (i : Z) : string :=
  str (firstn (clamp (len s) i) (chars s)).

(** [s[i]] *)
Definition getitem (s : string) (i : Z) : result ascii :=
  let j := if i <? 0 then i + len s else i in
  if (j <? 0) || (len s <=? j) then raise (IndexError "string index out of range")
  else match String.get (Z.to_nat j) s with
       | Some c => ret c
       | None => raise (IndexError "string index out of range")
       end.

(** The characters [str.strip()] and [str.split()] treat as whitespace:
    tab, line feed, vertical tab, form feed, carriage return and space. *)
Definition is_space (c : ascii) : bool :=
  match N_of_ascii c with
  | 9%N | 10%N | 11%N | 12%N | 13%N | 32%N => true
  | _ => false
  end.

Fixpoint lstrip_chars (l : list ascii) : list ascii :=
  match l with
  | [] => []
  | c :: l' => if is_space c then lstrip_chars l' else l
  end.

(** [s.strip()] *)
Definition strip (s : string) : string :=
  str (rev (lstrip_chars (rev (lstrip_chars (chars s))))).

(** The fields of a character list between separators; never empty. *)
Fixpoint fields (sep : ascii -> bool) (l : list ascii) : list (list ascii) :=
  match l with
  | [] => [[]]
  | c :: l' =>
      if sep c then [] :: fields sep l'
      else match fields sep l' with
           | w :: ws => (c :: w) :: ws
           | [] => [[c]]
           end
  end.

(** [s.split(c)] for a one-character separator: empty fields are kept. *)
Definition split_on (c : ascii) (s : string) : list string :=
  map str (fields (Ascii.eqb c) (chars s)).

Definition nonempty (w : list ascii) : bool :=
  match w with
  | [] => false
  | _ :: _ => true
  end.

(** [s.split()]: runs of whitespace separate, empty fields are dropped. *)
Definition split (s : string) : list string :=
  map str (filter nonempty (fields is_space (chars s))).

(** [s.replace(a, b)] for one-character [a] and [b]. *)
Fixpoint replace (a b : ascii) (s : string) : string :=
  match s with
  | EmptyString => EmptyString
  | String c s' => String (if Ascii.eqb c a then b else c) (replace a b s')
  end.

Definition upper (c : ascii) : ascii :=
  let n := N_of_ascii c in
  if ((97 <=? n) && (n <=? 122))%N then ascii_of_N (n - 32) else c.

Definition lower (c : ascii) : ascii :=
  let n := N_of_ascii c in
  if ((65 <=? n) && (n <=? 90))%N then ascii_of_N (n + 32) else c.

Fixpoint lower_all (s : string) : string :=
  match s with
  | EmptyString => EmptyString
  | String c s' => String (lower c) (lower_all s')
  end.

(** [s.capitalize()] *)
Definition capitalize (s : string) : string :=
  match s with
  | EmptyString => EmptyString
  | String c s' => String (upper c) (lower_all s')
  end.

(** [sep.join(xs)] *)
Fixpoint join (sep : string) (xs : list string) : string :=
  match xs with
  | [] => ""
  | [x] => x
  | x :: xs' => x ++ sep ++ join sep xs'
  end.

(** [x in xs] for a list of strings *)
Fixpoint mem (x : string) (xs : list string) : bool :=
  match xs with
  | [] => false
  | y :: xs' => String.eqb x y || mem x xs'
  end.

(** [fmt % args]: the conversions the script uses are [%s] (and the [%%]
    escape).  A right operand that is not a tuple is the one-element
    argument list.  Formatting runs left to right; a [%s] with no argument
    left raises at once, arguments left over raise at the end. *)
Fixpoint percent (fmt : string) (args : list string) : result string :=
  match fmt with
  | EmptyString =>
      match args with
      | [] => ret ""
      | _ :: _ => raise (TypeError "not all arguments converted during string formatting")
      end
  | String c rest =>
      if Ascii.eqb c "%" then
        match rest with
        | EmptyString => raise (ValueError "incomplete format")
        | String d rest' =>
            if Ascii.eqb d "s" then
              match args with
              | [] => raise (TypeError "not enough arguments for format string")
              | a :: args' => r <- percent rest' args' ;; ret (a ++ r)
              end
            else if Ascii.eqb d "%" then
              r <- percent rest' args ;; ret (String "%" r)
            else raise (ValueError "unsupported format character")
        end
      else r <- percent rest args ;; ret (String c r)
  end.

Definition digit (c : ascii) : option nat :=
  let n := N_of_ascii c in
  if ((48 <=? n) && (n <=? 57))%N then Some (N.to_nat (n - 48)) else None.

(** [fmt.format(a0, a1, ...)] for templates whose replacement fields are [{d}]
    with one decimal digit, as all templates of the script are. *)
Fixpoint format (fmt : string) (args : list string) : result string :=
  match fmt with
  | EmptyString => ret ""
  | String c rest =>
      if Ascii.eqb c "{" then
        match rest with
        | String d (String e rest') =>
            match digit d, Ascii.eqb e "}" with
            | Some n, true =>
                match nth_error args n with
                | Some a => r <- format rest' args ;; ret (a ++ r)
                | None => raise (IndexError "tuple index out of range")
                end
            | _, _ => raise (ValueError "unsupported replacement field")
            end
        | _ => raise (ValueError "Single '{' encountered in format string")
        end
      else r <- format rest args ;; ret (String c r)
  end.

(** [s.decode("ascii")]: every byte must be below 128. *)
Fixpoint is_ascii (s : string) : bool :=
  match s with
  | EmptyString => true
  | String c s' => (N_of_ascii c <? 128)%N && is_ascii s'
  end.

Definition decode_ascii (s : string) : result string :=
  if is_ascii s then ret s else raise UnicodeDecodeError.

End Py.

(** ** The environment of the script *)

(** The functions of [os.path] the script calls.  [path_join a b] is
    [os.path.join(a, b)]; a call with more components joins from the left. *)
Record OsPath : Type := {
  path_join : string -> string -> string;
  normpath : string -> string;
  splitext : string -> string * string;
  dirname : string -> string;
  basename : string -> string
}.

(** The file system as the script observes it.  [readlines p] is the
    sequence of lines that iterating over [open(p, "r")] yields, each with
    its line terminator, or [None] when the file cannot be opened;
    [writable p] tells whether [open(p, "w")] succeeds. *)
Record FileSystem : Type := {
  isfile : string -> bool;
  isdir : string -> bool;
  listdir : string -> list string;
  readlines : string -> option (list string);
  writable : string -> bool
}.

(** ** [get_sources] and [get_headers] *)

Section Extractor.

Variable os : OsPath.
Variable fs : FileSystem.

Definition source_ignore (icuroot : string) : list string :=
  map (fun source => path_join os icuroot (normpath os source))
    ["source/tools/toolutil/udbgutil.cpp";
     "source/tools/toolutil/dbgutil.cpp"].

Section GetSources.

Variable icuroot : string.
Variable mkin_path : string.

Definition cpp_of (object_path : string) : string :=
  fst (splitext os object_path) ++ ".cpp".

Definition c_of (object_path : string) : string :=
  fst (splitext os object_path) ++ ".c".

Definition get_source (object_path : string) : result (option string) :=
  let base := fst (splitext os object_path) in
  let cpp := base ++ ".cpp" in
  let c := base ++ ".c" in
  if Py.mem cpp (source_ignore icuroot) || Py.mem c (source_ignore icuroot)
  then ret None
  else if isfile fs cpp then ret (Some cpp)
  else if isfile fs c then ret (Some c)
  else msg <- Py.percent "%s has no corresponding source file" [object_path] ;;
       raise (Exception [msg]).

(** The body of [if in_objs == True:] for the current [line]: the sources
    that [sources.extend] appends. *)
Definition line_sources (line : string) : result (list string) :=
  let linelen := Py.len line in
  last <- Py.getitem line (linelen - 1) ;;
  let line :=
    if Ascii.eqb last "\" then Py.strip (Py.slice_to line (linelen - 1))
    else line in
  let objects :=
    map (fun o => path_join os (dirname os mkin_path) o) (Py.split line) in
  cpps <- mapM get_source objects ;;
  ret (filter_not_none cpps).

(** The [for line in mkin_contents] loop, with the loop state [in_objs] and
    [sources] passed along; running out of lines reaches the final [raise]. *)
Fixpoint scan (lines : list string) (in_objs : bool) (sources : list string)
  : result (list string) :=
  match lines with
  | [] =>
      msg <- Py.percent "Could not extract sources from %s" [mkin_path] ;;
      raise (Exception [msg])
  | raw :: rest =>
      let line := Py.strip raw in
      if String.eqb (Py.slice_to line 7) "OBJECTS" then
        cpps <- line_sources (Py.slice_from line 10) ;;
        scan rest true (sources ++ cpps)%list
      else if in_objs && (Py.len line =? 0) then ret sources
      else if in_objs then
        cpps <- line_sources line ;;
        scan rest true (sources ++ cpps)%list
      else scan rest false sources
  end.

Definition get_sources : result (list string) :=
  match readlines fs mkin_path with
  | None => raise (IOError mkin_path)
  | Some lines => scan lines false []
  end.

End GetSources.

Definition header_ignore (icuroot : string) : list string :=
  map (fun source => path_join os icuroot (normpath os source))
    ["source/tools/toolutil/udbgutil.h";
     "source/tools/toolutil/dbgutil.h"].

Definition get_headers (icuroot headers_path : string) : result (list string) :=
  if negb (isdir fs headers_path) then
    msg <- Py.percent "%s is not a valid headers path" [headers_path] ;;
    raise (Exception [msg])
  else
    let headers := map (fun h => path_join os headers_path h) (listdir fs headers_path) in
    let headers := filter (fun h => String.eqb (snd (splitext os h)) ".h") headers in
    let headers := filter (fun h => negb (Py.mem h (header_ignore icuroot))) headers in
    ret headers.

End Extractor.

(** [xs[i]] for a list and a non-negative index *)
Definition list_getitem {A} (xs : list A) (i : nat) : result A :=
  match nth_error xs i with
  | Some x => ret x
  | None => raise (IndexError "list index out of range")
  end.

(** ** [create_msvc_props] *)

(** The property file is the sequence of strings passed to
    [propfile.write], in order; a computation that raises keeps what was
    written before. *)
Definition writer (A : Type) : Type := list string -> list string * result A.

Definition wret {A} (a : A) : writer A := fun out => (out, ret a).

Definition wbind {A B} (m : writer A) (k : A -> writer B) : writer B :=
  fun out =>
    match m out with
    | (out', inl e) => (out', inl e)
    | (out', inr a) => k a out'
    end.

Definition lift {A} (r : result A) : writer A := fun out => (out, r).

Definition write (s : string) : writer unit :=
  fun out => ((out ++ [s])%list, ret tt).

Notation "x <~ m ;; k" := (wbind m (fun x => k))
  (at level 61, m at next level, right associativity).

(** [for x in xs: body(x)] *)
Fixpoint for_each {A} (xs : list A) (body : A -> writer unit) : writer unit :=
  match xs with
  | [] => wret tt
  | x :: xs' => _ <~ body x ;; for_each xs' body
  end.

Definition dq : string := String (ascii_of_nat 34) "".

Section Props.

Variable os : OsPath.
Variable fs : FileSystem.

(** [__file__] *)
Variable script_file : string.

Definition prelude : result string :=
  Py.percent
    ("<?xml version=" ++ dq ++ "1.0" ++ dq ++ " encoding=" ++ dq ++ "utf-8" ++ dq ++ "?>
<!-- DO NOT EDIT THIS FILE. It is auto-generated by $ChakraCore/tools/%s -->
<Project DefaultTargets=" ++ dq ++ "Build" ++ dq ++ " ToolsVersion=" ++ dq ++ "12.0" ++ dq
     ++ " xmlns=" ++ dq ++ "http://schemas.microsoft.com/developer/msbuild/2003" ++ dq ++ ">
  <PropertyGroup>")
    [basename os script_file].

Definition prop_template : string := "
    <Icu{0}{1}>
      {2}
    </Icu{0}{1}>".

Definition conclusion : string := "
  </PropertyGroup>
</Project>
".

Definition joiner : string := ";
      ".

Definition no_newline_prop_template : string := "
    <Icu{0}>{1}</Icu{0}>".

Section CreateMsvcProps.

Variable chakra_icu_root : string.
Variable icu_sources_root : string.
Variable version : string.

Definition add_props (deproot dep : string) : writer unit :=
  sources <~ lift (get_sources os fs icu_sources_root
                     (path_join os (path_join os deproot dep) "Makefile.in")) ;;
  sources_prop <~ lift (Py.format prop_template
                          [Py.capitalize dep; "Sources"; Py.join joiner sources]) ;;
  _ <~ write sources_prop ;;
  headers <~ lift (get_headers os fs icu_sources_root (path_join os deproot dep)) ;;
  headers_prop <~ lift (Py.format prop_template
                          [Py.capitalize dep; "Headers"; Py.join joiner headers]) ;;
  write headers_prop.

(** [open(path, "w")]: raises when the file cannot be opened for writing. *)
Definition open_for_writing (path : string) : writer unit :=
  lift (if writable fs path then ret tt else raise (IOError path)).

(** The file opened for writing, and what the body of the [with] block
    writes to it, starting from the empty file that [open(..., "w")]
    creates; nothing is written when the file cannot be opened. *)
Definition create_msvc_props : string * (list string * result unit) :=
  (path_join os chakra_icu_root "Chakra.ICU.props",
   (p <~ lift prelude ;;
   _ <~ open_for_writing (path_join os chakra_icu_root "Chakra.ICU.props") ;;
   _ <~ write p ;;
   let sourceroot := path_join os icu_sources_root "source" in
   _ <~ for_each ["common"; "i18n"; "stubdata"] (add_props sourceroot) ;;
   let toolsroot := path_join os sourceroot "tools" in
   _ <~ for_each ["toolutil"; "genccode"] (add_props toolsroot) ;;
   let version_parts := Py.split_on "." version in
   major <~ lift (list_getitem version_parts 0) ;;
   major_prop <~ lift (Py.format no_newline_prop_template ["VersionMajor"; major]) ;;
   _ <~ write major_prop ;;
   minor <~ lift (if (1 <? Z.of_nat (length version_parts))
                  then list_getitem version_parts 1 else ret "0") ;;
   minor_prop <~ lift (Py.format no_newline_prop_template ["VersionMinor"; minor]) ;;
   _ <~ write minor_prop ;;
   dir_prop <~ lift (Py.format no_newline_prop_template ["SourceDirectory"; sourceroot]) ;;
   _ <~ write dir_prop ;;
   let include_dirs :=
     map (fun component => path_join os sourceroot component) ["common"; "i18n"] in
   inc_prop <~ lift (Py.format prop_template
                       ["Include"; "Directories"; Py.join joiner include_dirs]) ;;
   _ <~ write inc_prop ;;
   write conclusion) []).

End CreateMsvcProps.

End Props.

(** ** [download_icu] *)

(** What [download_icu] needs from the host: [os.name], the answer typed at
    the [raw_input] prompt, [urllib.urlretrieve] (the local path of the
    download), the bytes of a local file, [urllib2.urlopen(url).read()] and
    [hashlib.md5(data).hexdigest()].  A transfer or read that fails is
    [None]. *)
Record Host : Type := {
  os_name : string;
  raw_input : string -> string;
  urlretrieve : string -> option string;
  read_binary : string -> option string;
  urlopen_read : string -> option string;
  md5_hexdigest : string -> string
}.

Definition io {A} (path : string) (o : option A) : result A :=
  match o with
  | Some a => ret a
  | None => raise (IOError path)
  end.

Fixpoint repeat_string (s : string) (n : nat) : string :=
  match n with
  | O => ""
  | S n' => s ++ repeat_string s n'
  end.

Section Download.

Variable os : OsPath.
Variable host : Host.

Definition license_template : string := "
{1}
This script downloads ICU from {0}.
It is licensed to you by its publisher, not Microsoft.
Microsoft is not responsible for the software.
Your installation and use of ICU is subject to the publisher's terms,
which are available here: http://www.unicode.org/copyright.html#License
{1}
".

(** [line[len(line) - len(archive_file):] == archive_file] *)
Definition is_relevant (archive_file line : string) : bool :=
  String.eqb (Py.slice_from line (Py.len line - Py.len archive_file)) archive_file.

(** [print] writes to standard output only and is left out. *)
Definition download_icu (icuroot version : string) (yes : bool) : result string :=
  let extension := if String.eqb (os_name host) "nt" then "zip" else "tgz" in
  archive_file <- Py.format "icu4c-{0}-src.{1}" [Py.replace "." "_" version; extension] ;;
  md5_file <- Py.format "icu4c-src-{0}.md5" [Py.replace "." "_" version] ;;
  archive_url <- Py.format "http://download.icu-project.org/files/icu4c/{0}/{1}"
                   [version; archive_file] ;;
  md5_url <- Py.format "https://ssl.icu-project.org/files/icu4c/{0}/{1}"
               [version; md5_file] ;;
  license_confirmation <- Py.format license_template [archive_url; repeat_string "-" 80] ;;
  _ <- (if negb yes then
          let response := raw_input host "Do you agree to these terms? [Y/n] " in
          if negb (String.eqb response "") && negb (String.eqb response "y")
             && negb (String.eqb response "Y")
          then raise (SystemExit 0)
          else ret tt
        else ret tt) ;;
  archive_path <- io archive_url (urlretrieve host archive_url) ;;
  (* check the hash of the download zipfile/tarball *)
  download <- io archive_path (read_binary host archive_path) ;;
  let checksum := md5_hexdigest host download in
  let md5_path := path_join os icuroot md5_file in
  md5_request <- io md5_url (urlopen_read host md5_url) ;;
  decoded <- Py.decode_ascii md5_request ;;
  let md5s := Py.split_on "010" decoded in
  let relevant_md5 := filter (is_relevant archive_file) md5s in
  if negb (Z.of_nat (length relevant_md5) =? 1) then
    msg <- Py.percent "Could not find md5 hash for %s in %s" [archive_file] ;;
    raise (Exception [msg; md5_url])
  else
    correct_hash <- list_getitem relevant_md5 0 ;;
    correct_hash <- list_getitem (Py.split_on " " correct_hash) 0 ;;
    if String.eqb correct_hash checksum then ret archive_path
    else
      msg <- Py.percent "MD5 checksums do not match. Expected %s, got %s" [correct_hash] ;;
      raise (Exception [msg; checksum]).

End Download.

(** ** A model of [posixpath]

    Used to run the script on concrete inputs; the theorems about the
    script hold for every [OsPath]. *)

Module Posix.

Definition is_slash (c : ascii) : bool := Ascii.eqb c "/".
Definition is_dot (c : ascii) : bool := Ascii.eqb c ".".

Fixpoint take_while (p : ascii -> bool) (l : list ascii) : list ascii :=
  match l with
  | [] => []
  | c :: l' => if p c then c :: take_while p l' else []
  end.

Fixpoint drop_while (p : ascii -> bool) (l : list ascii) : list ascii :=
  match l with
  | [] => []
  | c :: l' => if p c then drop_while p l' else l
  end.

(** [(p[:i], p[i:])] for [i = p.rfind('/') + 1] *)
Definition rsplit_slash (l : list ascii) : list ascii * list ascii :=
  let r := rev l in
  let tail := take_while (fun c => negb (is_slash c)) r in
  (rev (skipn (length tail) r), rev tail).

Definition starts_with_slash (s : string) : bool :=
  match s with
  | String c _ => is_slash c
  | EmptyString => false
  end.

Definition ends_with_slash (s : string) : bool :=
  match rev (Py.chars s) with
  | c :: _ => is_slash c
  | [] => false
  end.

Definition join (a b : string) : string :=
  if starts_with_slash b then b
  else if String.eqb a "" || ends_with_slash a then a ++ b
  else a ++ "/" ++ b.

Definition basename (p : string) : string :=
  Py.str (snd (rsplit_slash (Py.chars p))).

Definition dirname (p : string) : string :=
  let head := fst (rsplit_slash (Py.chars p)) in
  if forallb is_slash head then Py.str head
  else Py.str (rev (drop_while is_slash (rev head))).

Definition splitext (p : string) : string * string :=
  let (head, base) := rsplit_slash (Py.chars p) in
  let r := rev base in
  let ext := take_while (fun c => negb (is_dot c)) r in
  match skipn (length ext) r with
  | [] => (p, "")
  | d :: stem =>
      if existsb (fun c => negb (is_dot c)) stem
      then (Py.str (head ++ rev stem), Py.str (d :: rev ext))
      else (p, "")
  end.

(** The component stack of [normpath], most recent component first. *)
Fixpoint norm_comps (initial_slashes : bool) (comps new_comps : list string)
  : list string :=
  match comps with
  | [] => rev new_comps
  | comp :: comps' =>
      if String.eqb comp "" || String.eqb comp "." then
        norm_comps initial_slashes comps' new_comps
      else if negb (String.eqb comp "..")
              || (negb initial_slashes && match new_comps with [] => true | _ => false end)
              || match new_comps with last :: _ => String.eqb last ".." | [] => false end
      then norm_comps initial_slashes comps' (comp :: new_comps)
      else norm_comps initial_slashes comps' (tl new_comps)
  end.

Definition normpath (path : string) : string :=
  if String.eqb path "" then "."
  else
    let l := Py.chars path in
    let initial_slashes : nat :=
      match l with
      | a :: b :: c :: _ =>
          if is_slash a then
            if is_slash b && negb (is_slash c) then 2%nat else 1%nat
          else 0%nat
      | [a; b] => if is_slash a then (if is_slash b then 2%nat else 1%nat) else 0%nat
      | [a] => if is_slash a then 1%nat else 0%nat
      | [] => 0%nat
      end in
    let comps := norm_comps (negb (Nat.eqb initial_slashes 0))
                   (Py.split_on "/" path) [] in
    let path := repeat_string "/" initial_slashes ++ Py.join "/" comps in
    if String.eqb path "" then "." else path.

Definition ospath : OsPath :=
  Build_OsPath join normpath splitext dirname basename.

End Posix.

(** ** The shape of a build fragment

    These definitions describe a [Makefile.in] as the claims speak of it:
    which lines open and close the [OBJECTS] list, the object tokens of a
    line, and the ways an object path resolves. *)

Section Fragment.

Variable os : OsPath.
Variable fs : FileSystem.
Variable icuroot : string.
Variable mkin_path : string.

(** The line, stripped, starts with the token [OBJECTS]. *)
Definition starts_objects (raw : string) : bool :=
  String.eqb (Py.slice_to (Py.strip raw) 7) "OBJECTS".

(** The line holds nothing but whitespace. *)
Definition blank (raw : string) : bool :=
  Py.len (Py.strip raw) =? 0.

(** A line of the list without its trailing continuation marker. *)
Definition drop_continuation (line : string) : string :=
  match rev (Py.chars line) with
  | c :: r => if Ascii.eqb c "\" then Py.strip (Py.str (rev r)) else line
  | [] => line
  end.

(** The object paths a line of the list names, left to right. *)
Definition line_objects (line : string) : list string :=
  map (fun o => path_join os (dirname os mkin_path) o)
      (Py.split (drop_continuation line)).

(** The object paths of a list whose opening line holds [content] after
    the assignment and which continues over the lines [body], in document
    order. *)
Definition list_objects (content : string) (body : list string) : list string :=
  (line_objects content
   ++ flat_map (fun raw => line_objects (Py.strip raw)) body)%list.

(** The same, for the opening line as it stands in the file. *)
Definition fragment_objects (objline : string) (body : list string) : list string :=
  list_objects (Py.slice_from (Py.strip objline) 10) body.

(** One of the two siblings of the object is on the ignore list. *)
Definition ignored (o : string) : bool :=
  Py.mem (cpp_of os o) (source_ignore os icuroot)
  || Py.mem (c_of os o) (source_ignore os icuroot).

(** One of the two siblings of the object exists. *)
Definition has_source (o : string) : bool :=
  isfile fs (cpp_of os o) || isfile fs (c_of os o).

(** The [.cpp] sibling if that file exists, otherwise the [.c] sibling. *)
Definition resolve (o : string) : string :=
  if isfile fs (cpp_of os o) then cpp_of os o else c_of os o.

(** The lines of the list after its opening line: none blank, none
    opening the list again. *)
Definition continuation (raw : string) : bool :=
  negb (starts_objects raw) && negb (blank raw).

(** No blank line closes the list before the end of the file: in scanning
    state [in_objs], the lines run out first. *)
Fixpoint unterminated (lines : list string) (in_objs : bool) : bool :=
  match lines with
  | [] => true
  | raw :: rest =>
      if starts_objects raw then unterminated rest true
      else if in_objs && blank raw then false
      else unterminated rest in_objs
  end.

(** The error of the final [raise] of [get_sources]. *)
Definition malformed_fragment : exn :=
  Exception ["Could not extract sources from " ++ mkin_path].

(** The error [get_source] raises for the object [o]. *)
Definition missing_source (o : string) : exn :=
  Exception [o ++ " has no corresponding source file"].

(** How the scan of a list ends: at the end of the file, or at a blank
    line. *)
Inductive list_end : list string -> Prop :=
| end_of_file : list_end []
| blank_line (raw : string) (rest : list string) :
    blank raw = true -> list_end (raw :: rest).

Definition finish (tail : list string) (sources : list string) : result (list string) :=
  match tail with
  | [] => raise malformed_fragment
  | _ :: _ => ret sources
  end.

End Fragment.

(** ** Concrete environments *)

Module Sample.

(** A file system given by the list of its regular files, the list of its
    directories with their entries, and its text files.  A file can be
    opened for writing when it lies in one of the directories and is not a
    directory itself. *)
Definition make_fs (files : list string) (dirs : list (string * list string))
  (texts : list (string * list string)) : FileSystem :=
  let lookup := fun (tbl : list (string * list string)) (p : string) =>
    option_map snd (find (fun kv => String.eqb (fst kv) p) tbl) in
  let is_dir := fun p => match lookup dirs p with Some _ => true | None => false end in
  {| isfile := fun p => Py.mem p files;
     isdir := is_dir;
     listdir := fun p => match lookup dirs p with Some es => es | None => [] end;
     readlines := fun p => lookup texts p;
     writable := fun p => is_dir (Posix.dirname p) && negb (is_dir p) |}.

Definition nl : string := String "010" "".

(** [source/common/Makefile.in]: a list over three lines, closed by a blank
    line, naming [putil.o] twice. *)
Definition common_mk : list string :=
  ["## Makefile.in for ICU - icuuc" ++ nl;
   "OBJECTS = errorcode.o putil.o \" ++ nl;
   "umath.o \" ++ nl;
   "putil.o" ++ nl;
   nl;
   "STATIC_OBJECTS = $(OBJECTS:.o=.$(STATIC_O))" ++ nl].

(** [source/tools/toolutil/Makefile.in]: names the two ignored sources. *)
Definition toolutil_mk : list string :=
  ["OBJECTS = filestrm.o udbgutil.o \" ++ nl;
   "dbgutil.o toolutil.o" ++ nl;
   nl].

(** A list that the end of the file cuts short. *)
Definition unterminated_mk : list string :=
  ["OBJECTS = errorcode.o \" ++ nl;
   "putil.o" ++ nl].

(** A list naming an object that has no source. *)
Definition missing_mk : list string :=
  ["OBJECTS = errorcode.o nosuch.o" ++ nl;
   nl].

(** The same object on a list that the end of the file cuts short. *)
Definition missing_unterminated_mk : list string :=
  ["OBJECTS = nosuch.o" ++ nl].

(** The bare assignment, its tokens on the lines after it. *)
Definition bare_mk : list string :=
  ["OBJECTS =" ++ nl;
   "errorcode.o" ++ nl;
   nl].

Definition empty_list_mk : list string :=
  ["OBJECTS = \" ++ nl;
   nl].

Definition tree : FileSystem :=
  make_fs
    ["icu/source/common/errorcode.cpp";
     "icu/source/common/putil.cpp";
     "icu/source/common/umath.c";
     "icu/source/common/umath.cpp.orig";
     "icu/source/tools/toolutil/filestrm.c";
     "icu/source/tools/toolutil/toolutil.cpp"]
    [("icu/source/common", ["putil.h"; "umath.h"; "errorcode.cpp"; "unicode"]);
     ("icu/source/i18n", []);
     ("icu/source/stubdata", []);
     ("icu/source/tools/toolutil", ["a.h"; "b.c"; "udbgutil.h"; "dbgutil.h"]);
     ("icu/source/tools/genccode", []);
     ("deps/Chakra.ICU", [])]
    [("icu/source/common/Makefile.in", common_mk);
     ("icu/source/i18n/Makefile.in", empty_list_mk);
     ("icu/source/stubdata/Makefile.in", empty_list_mk);
     ("icu/source/tools/toolutil/Makefile.in", toolutil_mk);
     ("icu/source/tools/genccode/Makefile.in", empty_list_mk);
     ("icu/source/common/unterminated.in", unterminated_mk);
     ("icu/source/common/missing.in", missing_mk);
     ("icu/source/common/missing_unterminated.in", missing_unterminated_mk);
     ("icu/source/common/bare.in", bare_mk)].

(** A stand-in for [hashlib.md5]: the MD5 digest of the bytes the sample
    host serves, and the MD5 digest of the empty string for any other
    data. *)
Definition digest (data : string) : string :=
  if String.eqb data "ICU 61.1 SOURCE ARCHIVE" then "89852f67b65704c507c720c131deea63"
  else "d41d8cd98f00b204e9800998ecf8427e".

Definition archive_url : string :=
  "http://download.icu-project.org/files/icu4c/61.1/icu4c-61_1-src.tgz".

Definition md5_url : string :=
  "https://ssl.icu-project.org/files/icu4c/61.1/icu4c-src-61_1.md5".

(** A POSIX host that serves the 61.1 archive and the given manifest, and
    whose user declines at the prompt. *)
Definition host (manifest : string) : Host :=
  {| os_name := "posix";
     raw_input := fun _ => "n";
     urlretrieve := fun url =>
       if String.eqb url archive_url then Some "/tmp/tmpXq3vWk" else None;
     read_binary := fun path =>
       if String.eqb path "/tmp/tmpXq3vWk" then Some "ICU 61.1 SOURCE ARCHIVE" else None;
     urlopen_read := fun url =>
       if String.eqb url md5_url then Some manifest else None;
     md5_hexdigest := digest |}.

Definition zip_line : string :=
  "0a1b2c3d4e5f60718293a4b5c6d7e8f9  icu4c-61_1-src.zip".

(** One line for the archive, with the digest of the served bytes. *)
Definition good_manifest : string :=
  "89852f67b65704c507c720c131deea63  icu4c-61_1-src.tgz" ++ nl ++ zip_line ++ nl.

(** One line for the archive, with another digest. *)
Definition wrong_manifest : string :=
  "00000000000000000000000000000000  icu4c-61_1-src.tgz" ++ nl ++ zip_line ++ nl.

(** No line for the archive. *)
Definition silent_manifest : string := zip_line ++ nl.

(** Two lines for the archive. *)
Definition double_manifest : string :=
  "89852f67b65704c507c720c131deea63  icu4c-61_1-src.tgz" ++ nl
  ++ "89852f67b65704c507c720c131deea63  old/icu4c-61_1-src.tgz" ++ nl.

End Sample.

(** ** The version fields and the manifest, as the claims speak of them *)

(** [version_parts[0]] *)
Definition version_major (version : string) : string :=
  hd "" (Py.split_on "." version).

(** [version_parts[1] if len(version_parts) > 1 else "0"] *)
Definition version_minor (version : string) : string :=
  nth 1 (Py.split_on "." version) "0".

(** The line [no_newline_prop_template] produces for a property. *)
Definition version_field (name value : string) : string :=
  "
    <Icu" ++ name ++ ">" ++ value ++ "</Icu" ++ name ++ ">".

Definition no_dot (version : string) : bool :=
  forallb (fun c => negb (Ascii.eqb "." c)) (Py.chars version).

(** The name of the archive for a version on a host. *)
Definition archive_file_of (host : Host) (version : string) : string :=
  "icu4c-" ++ Py.replace "." "_" version ++ "-src."
  ++ (if String.eqb (os_name host) "nt" then "zip" else "tgz").

Definition md5_file_of (version : string) : string :=
  "icu4c-src-" ++ Py.replace "." "_" version ++ ".md5".

Definition archive_url_of (host : Host) (version : string) : string :=
  "http://download.icu-project.org/files/icu4c/" ++ version ++ "/"
  ++ archive_file_of host version.

Definition md5_url_of (version : string) : string :=
  "https://ssl.icu-project.org/files/icu4c/" ++ version ++ "/" ++ md5_file_of version.

(** The user has agreed: [-y] was given, or the answer at the prompt is
    empty, [y] or [Y]. *)
Definition consent (host : Host) (yes : bool) : bool :=
  yes
  || (let response := raw_input host "Do you agree to these terms? [Y/n] " in
      String.eqb response "" || String.eqb response "y" || String.eqb response "Y").

(** The lines of the manifest that end with the archive name. *)
Definition relevant_lines (host : Host) (version manifest : string) : list string :=
  filter (is_relevant (archive_file_of host version)) (Py.split_on "010" manifest).

(** The first space-separated token of a manifest line. *)
Definition first_token (line : string) : string :=
  hd "" (Py.split_on " " line).

(** The error both failure branches of [download_icu] end in. *)
Definition format_error : exn :=
  TypeError "not enough arguments for format string".

(** ** Further vocabulary for the properties of the script *)

(** The file system [fs] with the lines of the file [path] replaced. *)
Definition with_lines (fs : FileSystem) (path : string) (lines : list string)
  : FileSystem :=
  {| isfile := isfile fs;
     isdir := isdir fs;
     listdir := listdir fs;
     readlines := fun p => if String.eqb p path then Some lines else readlines fs p;
     writable := writable fs |}.

(** The line ends with the continuation marker. *)
Definition continued (line : string) : bool :=
  match rev (Py.chars line) with
  | c :: _ => Ascii.eqb c "\"
  | [] => false
  end.

(** The text [prelude] evaluates to. *)
Definition prelude_text (os : OsPath) (script_file : string) : string :=
  "<?xml version=" ++ dq ++ "1.0" ++ dq ++ " encoding=" ++ dq ++ "utf-8" ++ dq ++ "?>
<!-- DO NOT EDIT THIS FILE. It is auto-generated by $ChakraCore/tools/"
  ++ basename os script_file ++ " -->
<Project DefaultTargets=" ++ dq ++ "Build" ++ dq ++ " ToolsVersion=" ++ dq ++ "12.0" ++ dq
  ++ " xmlns=" ++ dq ++ "http://schemas.microsoft.com/developer/msbuild/2003" ++ dq ++ ">
  <PropertyGroup>".

(** The block [prop_template] produces for a component and a kind. *)
Definition prop_block (dep kind body : string) : string :=
  "
    <Icu" ++ dep ++ kind ++ ">
      " ++ body ++ "
    </Icu" ++ dep ++ kind ++ ">".

(** The components of the two loops of [create_msvc_props], each with the
    directory it lives in, in the order the loops visit them. *)
Definition components (os : OsPath) (icu_sources_root : string)
  : list (string * string) :=
  let sourceroot := path_join os icu_sources_root "source" in
  let toolsroot := path_join os sourceroot "tools" in
  [(sourceroot, "common"); (sourceroot, "i18n"); (sourceroot, "stubdata");
   (toolsroot, "toolutil"); (toolsroot, "genccode")].

(** The two blocks of a component, when both of its lists can be made. *)
Definition component_blocks (os : OsPath) (fs : FileSystem) (icu_sources_root : string)
  (c : string * string) : result (list string) :=
  let (deproot, dep) := c in
  sources <- get_sources os fs icu_sources_root
               (path_join os (path_join os deproot dep) "Makefile.in") ;;
  headers <- get_headers os fs icu_sources_root (path_join os deproot dep) ;;
  ret [prop_block (Py.capitalize dep) "Sources" (Py.join joiner sources);
       prop_block (Py.capitalize dep) "Headers" (Py.join joiner headers)].

(** What [create_msvc_props] writes after the blocks of the components. *)
Definition props_tail (os : OsPath) (icu_sources_root version : string) : list string :=
  let sourceroot := path_join os icu_sources_root "source" in
  [version_field "VersionMajor" (version_major version);
   version_field "VersionMinor" (version_minor version);
   version_field "SourceDirectory" sourceroot;
   prop_block "Include" "Directories"
     (Py.join joiner [path_join os sourceroot "common"; path_join os sourceroot "i18n"]);
   conclusion].

(** What [get_source] hands back is on disk and not on the ignore list. *)
Definition vetted (os : OsPath) (fs : FileSystem) (icuroot src : string) : Prop :=
  isfile fs src = true /\ Py.mem src (source_ignore os icuroot) = false.

(** The string is a block of [prop_template]. *)
Definition is_block (s : string) : Prop :=
  exists dep kind body, s = prop_block dep kind body.

(** A tree cut short: [source/tools/genccode] is not there. *)
Definition partial_tree : FileSystem :=
  Sample.make_fs
    ["icu/source/common/errorcode.cpp";
     "icu/source/common/putil.cpp";
     "icu/source/common/umath.c";
     "icu/source/tools/toolutil/filestrm.c";
     "icu/source/tools/toolutil/toolutil.cpp"]
    [("icu/source/common", ["putil.h"; "umath.h"; "errorcode.cpp"; "unicode"]);
     ("icu/source/i18n", []);
     ("icu/source/stubdata", []);
     ("icu/source/tools/toolutil", ["a.h"; "b.c"; "udbgutil.h"; "dbgutil.h"]);
     ("deps/Chakra.ICU", [])]
    [("icu/source/common/Makefile.in", Sample.common_mk);
     ("icu/source/i18n/Makefile.in", Sample.empty_list_mk);
     ("icu/source/stubdata/Makefile.in", Sample.empty_list_mk);
     ("icu/source/tools/toolutil/Makefile.in", Sample.toolutil_mk)].

(** A host that serves a manifest with a byte outside ASCII. *)
Definition latin1_manifest : string :=
  "89852f67b65704c507c720c131deea63  icu4c-61_1-src.tgz" ++ Sample.nl
  ++ String (ascii_of_nat 233) "" ++ Sample.nl.

(** ** Facts about the string primitives *)

Lemma chars_str (l : list ascii) : Py.chars (Py.str l) = l.
Proof. apply list_ascii_of_string_of_list_ascii. Qed.

Lemma str_chars (s : string) : Py.str (Py.chars s) = s.
Proof. apply string_of_list_ascii_of_string. Qed.

Lemma length_chars (s : string) : List.length (Py.chars s) = String.length s.
Proof. induction s as [|c s IH]; simpl; [reflexivity | now rewrite IH]. Qed.

Lemma len_chars (s : string) : Py.len s = Z.of_nat (List.length (Py.chars s)).
Proof. unfold Py.len. now rewrite length_chars. Qed.

Lemma len_nonneg (s : string) : 0 <= Py.len s.
Proof. unfold Py.len. lia. Qed.

Lemma len_zero (s : string) : Py.len s = 0 -> s = "".
Proof. destruct s; [reflexivity | unfold Py.len; simpl; lia]. Qed.

Lemma get_nth_error (s : string) (n : nat) :
  String.get n s = nth_error (Py.chars s) n.
Proof.
  revert n. induction s as [|c s IH]; intros [|n]; simpl; auto.
Qed.

(** Slicing from an index at or beyond the end leaves nothing. *)
Lemma slice_from_beyond (s : string) (i : Z) :
  Py.len s <= i -> Py.slice_from s i = "".
Proof.
  intros Hi. unfold Py.slice_from, Py.clamp.
  pose proof (len_nonneg s) as Hn.
  destruct (Z.ltb_spec i 0) as [Hneg|_]; [lia|].
  rewrite Z.min_r by lia.
  rewrite skipn_all2; [reflexivity|].
  rewrite len_chars in *. lia.
Qed.

Lemma slice_from_app (p s : string) :
  Py.slice_from (p ++ s) (Py.len p) = s.
Proof.
  unfold Py.slice_from, Py.clamp.
  pose proof (len_nonneg p) as Hp.
  destruct (Z.ltb_spec (Py.len p) 0) as [Hneg|_]; [lia|].
  assert (Hc : Py.chars (p ++ s) = (Py.chars p ++ Py.chars s)%list).
  { induction p as [|c p IH]; simpl; [reflexivity|].
    f_equal. apply IH. unfold Py.len. lia. }
  rewrite Z.min_l.
  - rewrite Hc, len_chars, Nat2Z.id, skipn_app, skipn_all, Nat.sub_diag.
    simpl. apply str_chars.
  - rewrite !len_chars, Hc, length_app. lia.
Qed.

Lemma slice_to_app (p s : string) :
  Py.slice_to (p ++ s) (Py.len p) = p.
Proof.
  unfold Py.slice_to, Py.clamp.
  pose proof (len_nonneg p) as Hp.
  destruct (Z.ltb_spec (Py.len p) 0) as [Hneg|_]; [lia|].
  assert (Hc : Py.chars (p ++ s) = (Py.chars p ++ Py.chars s)%list).
  { clear Hp. induction p as [|c p IH]; simpl; [reflexivity|]. now f_equal. }
  rewrite Z.min_l.
  - rewrite Hc, len_chars, Nat2Z.id, firstn_app, firstn_all, Nat.sub_diag.
    simpl. rewrite app_nil_r. apply str_chars.
  - rewrite !len_chars, Hc, length_app. lia.
Qed.

Lemma getitem_empty (i : Z) :
  Py.getitem "" i = raise (IndexError "string index out of range").
Proof.
  unfold Py.getitem. change (Py.len "") with 0.
  destruct (i <? 0) eqn:Hi.
  - rewrite Z.add_0_r, Hi. reflexivity.
  - rewrite Hi. simpl.
    destruct (Z.leb_spec 0 i) as [_|H]; [reflexivity|].
    apply Z.ltb_ge in Hi. lia.
Qed.

(** The last character of a non-empty string, and the string before it. *)
Lemma getitem_last (line : string) (l : list ascii) (c : ascii) :
  Py.chars line = (l ++ [c])%list ->
  Py.getitem line (Py.len line - 1) = ret c.
Proof.
  intros Hl. unfold Py.getitem.
  assert (Hlen : Py.len line = Z.of_nat (List.length l) + 1).
  { rewrite len_chars, Hl, length_app. simpl. lia. }
  rewrite Hlen.
  replace (Z.of_nat (List.length l) + 1 - 1) with (Z.of_nat (List.length l)) by lia.
  assert (H0 : (Z.of_nat (List.length l) <? 0) = false) by (apply Z.ltb_ge; lia).
  assert (H1 : (Z.of_nat (List.length l) + 1 <=? Z.of_nat (List.length l)) = false)
    by (apply Z.leb_gt; lia).
  cbv zeta. rewrite !H0, H1. simpl.
  rewrite Nat2Z.id, get_nth_error, Hl.
  rewrite nth_error_app2 by lia. rewrite Nat.sub_diag. reflexivity.
Qed.

Lemma slice_to_last (line : string) (l : list ascii) (c : ascii) :
  Py.chars line = (l ++ [c])%list ->
  Py.slice_to line (Py.len line - 1) = Py.str l.
Proof.
  intros Hl. unfold Py.slice_to, Py.clamp.
  assert (Hlen : Py.len line = Z.of_nat (List.length l) + 1).
  { rewrite len_chars, Hl, length_app. simpl. lia. }
  rewrite Hlen.
  replace (Z.of_nat (List.length l) + 1 - 1) with (Z.of_nat (List.length l)) by lia.
  destruct (Z.ltb_spec (Z.of_nat (List.length l)) 0) as [H|_]; [lia|].
  rewrite Z.min_l by lia. rewrite Nat2Z.id, Hl.
  rewrite firstn_app, firstn_all, Nat.sub_diag. simpl. now rewrite app_nil_r.
Qed.

Lemma nonempty_snoc (line : string) :
  line <> "" -> exists l c, Py.chars line = (l ++ [c])%list.
Proof.
  intros Hne. destruct (rev (Py.chars line)) as [|c r] eqn:Hr.
  - exfalso. apply Hne. rewrite <- (str_chars line).
    rewrite <- (rev_involutive (Py.chars line)), Hr. reflexivity.
  - exists (rev r), c. rewrite <- (rev_involutive (Py.chars line)), Hr. reflexivity.
Qed.

(** ** Facts about the error monad *)

Lemma bind_assoc {A B C} (m : result A) (f : A -> result B) (g : B -> result C) :
  bind (bind m f) g = bind m (fun a => bind (f a) g).
Proof. destruct m; reflexivity. Qed.

Lemma mapM_app {A B} (f : A -> result B) (xs ys : list A) :
  mapM f (xs ++ ys)
  = (bs <- mapM f xs ;; cs <- mapM f ys ;; ret (bs ++ cs)%list).
Proof.
  induction xs as [|x xs IH]; simpl.
  - destruct (mapM f ys); reflexivity.
  - destruct (f x) as [e|b]; simpl; [reflexivity|].
    rewrite IH. destruct (mapM f xs) as [e|bs]; simpl; [reflexivity|].
    destruct (mapM f ys); reflexivity.
Qed.

Lemma filter_not_none_app {A} (xs ys : list (option A)) :
  filter_not_none (xs ++ ys) = (filter_not_none xs ++ filter_not_none ys)%list.
Proof.
  induction xs as [|[a|] xs IH]; simpl; [reflexivity| |]; now rewrite IH.
Qed.

Lemma append_empty_r (s : string) : s ++ "" = s.
Proof. induction s as [|c s IH]; simpl; [reflexivity | now rewrite IH]. Qed.

Lemma slice_from_nonempty (s : string) (i : Z) :
  0 <= i < Py.len s -> Py.slice_from s i <> "".
Proof.
  intros [Hi Hlt] He. unfold Py.slice_from, Py.clamp in He.
  destruct (Z.ltb_spec i 0) as [H|_]; [lia|].
  rewrite Z.min_l in He by lia.
  apply (f_equal Py.chars) in He. rewrite chars_str in He. simpl in He.
  apply (f_equal (@List.length ascii)) in He.
  rewrite length_skipn in He. simpl in He.
  rewrite len_chars in Hlt. lia.
Qed.

(** ** The scan of a fragment, line by line *)

Section ScanFacts.

Variable os : OsPath.
Variable fs : FileSystem.
Variable icuroot : string.
Variable mkin_path : string.

Abbreviation get_source := (get_source os fs icuroot).
Abbreviation line_sources := (line_sources os fs icuroot mkin_path).
Abbreviation scan := (scan os fs icuroot mkin_path).
Abbreviation line_objects := (line_objects os mkin_path).
Abbreviation fragment_objects := (fragment_objects os mkin_path).
Abbreviation ignored := (ignored os icuroot).
Abbreviation has_source := (has_source os fs).
Abbreviation resolve := (resolve os fs).
Abbreviation malformed_fragment := (malformed_fragment mkin_path).
Abbreviation finish := (finish mkin_path).

Lemma scan_end (in_objs : bool) (sources : list string) :
  scan [] in_objs sources = raise malformed_fragment.
Proof.
  unfold malformed_fragment. simpl. rewrite append_empty_r. reflexivity.
Qed.

Lemma blank_not_objects (raw : string) :
  blank raw = true -> starts_objects raw = false.
Proof.
  unfold blank, starts_objects. intros H.
  apply Z.eqb_eq, len_zero in H. rewrite H. reflexivity.
Qed.

Lemma scan_skip (pre rest : list string) (sources : list string) :
  forallb (fun raw => negb (starts_objects raw)) pre = true ->
  scan (pre ++ rest) false sources = scan rest false sources.
Proof.
  induction pre as [|raw pre IH]; simpl; intros H; [reflexivity|].
  apply andb_true_iff in H as [Hraw Hpre].
  apply negb_true_iff in Hraw. unfold starts_objects in Hraw.
  rewrite Hraw. auto.
Qed.

Lemma scan_open (objline : string) (rest : list string) (in_objs : bool)
  (sources : list string) :
  starts_objects objline = true ->
  scan (objline :: rest) in_objs sources
  = (cpps <- line_sources (Py.slice_from (Py.strip objline) 10) ;;
     scan rest true (sources ++ cpps)%list).
Proof.
  intros H. unfold starts_objects in H. simpl. rewrite H. reflexivity.
Qed.

Lemma scan_continue (raw : string) (rest : list string) (sources : list string) :
  continuation raw = true ->
  scan (raw :: rest) true sources
  = (cpps <- line_sources (Py.strip raw) ;; scan rest true (sources ++ cpps)%list).
Proof.
  unfold continuation, starts_objects, blank. intros H.
  apply andb_true_iff in H as [Ho Hb].
  apply negb_true_iff in Ho, Hb.
  simpl. rewrite Ho, Hb. reflexivity.
Qed.

Lemma scan_close (raw : string) (rest : list string) (sources : list string) :
  blank raw = true -> scan (raw :: rest) true sources = ret sources.
Proof.
  intros H. pose proof (blank_not_objects raw H) as Ho.
  unfold starts_objects in Ho. unfold blank in H.
  simpl. rewrite Ho, H. reflexivity.
Qed.

Lemma scan_not_open (raw : string) (rest : list string) (sources : list string) :
  starts_objects raw = false ->
  scan (raw :: rest) false sources = scan rest false sources.
Proof.
  intros H. unfold starts_objects in H. simpl. rewrite H. reflexivity.
Qed.

(** On a non-empty line the block under [if in_objs == True:] resolves
    the objects of the line, left to right. *)
Lemma line_sources_objects (line : string) :
  line <> "" ->
  line_sources line
  = (cpps <- mapM get_source (line_objects line) ;; ret (filter_not_none cpps)).
Proof.
  intros Hne. destruct (nonempty_snoc line Hne) as (l & c & Hl).
  unfold line_sources, line_objects, drop_continuation.
  rewrite (getitem_last line l c Hl). simpl.
  rewrite (slice_to_last line l c Hl).
  rewrite Hl, rev_app_distr. simpl. rewrite rev_involutive.
  destruct (Ascii.eqb c "\"); reflexivity.
Qed.

Lemma line_sources_empty : line_sources "" = raise (IndexError "string index out of range").
Proof. reflexivity. Qed.

Lemma continuation_nonempty (raw : string) :
  continuation raw = true -> Py.strip raw <> "".
Proof.
  unfold continuation, blank. intros H He.
  apply andb_true_iff in H as [_ Hb]. rewrite He in Hb. discriminate.
Qed.

Lemma scan_body (body tail : list string) (sources : list string) :
  forallb continuation body = true ->
  scan (body ++ tail) true sources
  = (cpps <- mapM get_source (flat_map (fun raw => line_objects (Py.strip raw)) body) ;;
     scan tail true (sources ++ filter_not_none cpps)%list).
Proof.
  revert sources. induction body as [|raw body IH]; intros sources H.
  - simpl. now rewrite app_nil_r.
  - simpl in H. apply andb_true_iff in H as [Hraw Hbody].
    change ((raw :: body) ++ tail)%list with (raw :: (body ++ tail))%list.
    rewrite (scan_continue _ _ _ Hraw).
    rewrite (line_sources_objects _ (continuation_nonempty _ Hraw)).
    simpl flat_map. rewrite mapM_app.
    destruct (mapM get_source (line_objects (Py.strip raw))) as [e|cs]; simpl;
      [reflexivity|].
    rewrite (IH _ Hbody).
    destruct (mapM get_source _) as [e|ds]; simpl; [reflexivity|].
    now rewrite filter_not_none_app, app_assoc.
Qed.

(** The scan of a whole fragment: the lines before the list are skipped,
    the objects of the list are resolved in document order, and the end of
    the list decides between the sources and the final [raise]. *)
Lemma scan_fragment (pre : list string) (objline : string) (body tail : list string) :
  forallb (fun raw => negb (starts_objects raw)) pre = true ->
  starts_objects objline = true ->
  10 < Py.len (Py.strip objline) ->
  forallb continuation body = true ->
  list_end tail ->
  scan (pre ++ objline :: body ++ tail) false []
  = (cpps <- mapM get_source (fragment_objects objline body) ;;
     finish tail (filter_not_none cpps)).
Proof.
  intros Hpre Hobj Hlen Hbody Htail.
  rewrite (scan_skip _ _ _ Hpre), (scan_open _ _ _ _ Hobj).
  rewrite line_sources_objects by (apply slice_from_nonempty; lia).
  unfold fragment_objects, list_objects. rewrite mapM_app.
  destruct (mapM get_source (line_objects _)) as [e|cs]; simpl; [reflexivity|].
  rewrite (scan_body _ _ _ Hbody).
  destruct (mapM get_source _) as [e|ds]; simpl; [reflexivity|].
  rewrite filter_not_none_app.
  destruct Htail as [|raw rest Hb].
  - apply scan_end.
  - apply (scan_close _ _ _ Hb).
Qed.

(** ** The three outcomes of [get_source] *)

Lemma get_source_ignored (o : string) :
  ignored o = true -> get_source o = ret None.
Proof.
  unfold ignored, cpp_of, c_of, get_source. intros H.
  cbv zeta. rewrite H. reflexivity.
Qed.

Lemma get_source_found (o : string) :
  ignored o = false -> has_source o = true -> get_source o = ret (Some (resolve o)).
Proof.
  unfold ignored, has_source, resolve, cpp_of, c_of,
    get_source.
  intros Hi Hs. cbv zeta. rewrite Hi.
  destruct (isfile fs (fst (splitext os o) ++ ".cpp")); [reflexivity|].
  simpl in Hs. rewrite Hs. reflexivity.
Qed.

Lemma get_source_missing (o : string) :
  ignored o = false -> has_source o = false -> get_source o = raise (missing_source o).
Proof.
  unfold ignored, has_source, cpp_of, c_of, get_source.
  intros Hi Hs. cbv zeta. rewrite Hi.
  apply orb_false_iff in Hs as [Hcpp Hc]. rewrite Hcpp, Hc. reflexivity.
Qed.

Lemma mapM_resolved (objs : list string) :
  (forall o, In o objs -> ignored o = true \/ has_source o = true) ->
  mapM get_source objs
  = ret (map (fun o => if ignored o then None else Some (resolve o)) objs).
Proof.
  induction objs as [|o objs IH]; intros H; [reflexivity|].
  simpl. destruct (ignored o) eqn:Hi.
  - rewrite (get_source_ignored _ Hi). simpl.
    rewrite IH by (intros; apply H; now right). reflexivity.
  - destruct (H o (or_introl eq_refl)) as [Hc|Hs]; [congruence|].
    rewrite (get_source_found _ Hi Hs). simpl.
    rewrite IH by (intros; apply H; now right). reflexivity.
Qed.

Lemma filter_resolved (objs : list string) :
  filter_not_none (map (fun o => if ignored o then None else Some (resolve o)) objs)
  = map resolve (filter (fun o => negb (ignored o)) objs).
Proof.
  induction objs as [|o objs IH]; [reflexivity|].
  simpl. destruct (ignored o); simpl; now rewrite IH.
Qed.

Lemma mapM_first_missing (before : list string) (o : string) (after : list string) :
  (forall o', In o' before -> ignored o' = true \/ has_source o' = true) ->
  ignored o = false -> has_source o = false ->
  mapM get_source (before ++ o :: after) = raise (missing_source o).
Proof.
  intros Hb Hi Hs. rewrite mapM_app, (mapM_resolved _ Hb). simpl.
  rewrite (get_source_missing _ Hi Hs). reflexivity.
Qed.

Lemma first_missing (objs : list string) :
  (exists o, In o objs /\ ignored o = false /\ has_source o = false) ->
  exists before o after,
    objs = (before ++ o :: after)%list
    /\ (forall o', In o' before -> ignored o' = true \/ has_source o' = true)
    /\ ignored o = false /\ has_source o = false.
Proof.
  induction objs as [|x objs IH]; intros (o & Hin & Hi & Hs); [destruct Hin|].
  destruct (ignored x) eqn:Hix; [|destruct (has_source x) eqn:Hsx].
  - destruct Hin as [->|Hin]; [congruence|].
    destruct IH as (b & o' & a & -> & Hb & Ho'); [now exists o|].
    exists (x :: b), o', a. split; [reflexivity|]. split; [|exact Ho'].
    intros y [<-|Hy]; [now left | now apply Hb].
  - destruct Hin as [->|Hin]; [congruence|].
    destruct IH as (b & o' & a & -> & Hb & Ho'); [now exists o|].
    exists (x :: b), o', a. split; [reflexivity|]. split; [|exact Ho'].
    intros y [<-|Hy]; [now right | now apply Hb].
  - exists [], x, objs. split; [reflexivity|]. split; [intros y []|]. now split.
Qed.

End ScanFacts.

(** ** The opening line of the list *)

Lemma lstrip_head (l r : list ascii) (c : ascii) :
  Py.lstrip_chars l = c :: r -> Py.is_space c = false.
Proof.
  induction l as [|a l IH]; simpl; [discriminate|].
  destruct (Py.is_space a) eqn:Ha; [exact IH|].
  intros H. injection H as <- _. exact Ha.
Qed.

(** A stripped string does not end in whitespace. *)
Lemma strip_last (s : string) (l : list ascii) (c : ascii) :
  Py.chars (Py.strip s) = (l ++ [c])%list -> Py.is_space c = false.
Proof.
  unfold Py.strip. rewrite chars_str. intros H.
  apply (f_equal (@rev ascii)) in H.
  rewrite rev_involutive, rev_app_distr in H. simpl in H.
  exact (lstrip_head _ _ _ H).
Qed.

Lemma chars_append (p s : string) :
  Py.chars (p ++ s) = (Py.chars p ++ Py.chars s)%list.
Proof. induction p as [|c p IH]; simpl; [reflexivity | now f_equal]. Qed.

(** A line of the form [OBJECTS = content] opens the list, [content] is
    what the scan keeps of it, and [content] is not empty. *)
Lemma objects_assignment (objline content : string) :
  Py.strip objline = "OBJECTS = " ++ content ->
  starts_objects objline = true
  /\ Py.slice_from (Py.strip objline) 10 = content
  /\ 10 < Py.len (Py.strip objline).
Proof.
  intros H. unfold starts_objects. rewrite H. repeat split.
  - change ("OBJECTS = " ++ content) with ("OBJECTS" ++ (" = " ++ content)).
    change 7 with (Py.len "OBJECTS"). now rewrite slice_to_app.
  - change 10 with (Py.len "OBJECTS = "). apply slice_from_app.
  - destruct content as [|c content].
    + exfalso. pose proof (strip_last objline (Py.chars "OBJECTS =") " "%char) as Hs.
      rewrite H in Hs. specialize (Hs eq_refl). discriminate.
    + rewrite len_chars. change (Py.chars ("OBJECTS = " ++ String c content))
        with (Py.chars "OBJECTS = " ++ c :: Py.chars content)%list.
      rewrite length_app. simpl. lia.
Qed.

Lemma get_sources_scan (os : OsPath) (fs : FileSystem) (icuroot mkin_path : string)
  (lines : list string) :
  readlines fs mkin_path = Some lines ->
  get_sources os fs icuroot mkin_path = scan os fs icuroot mkin_path lines false [].
Proof. unfold get_sources. now intros ->. Qed.

(** A list that no blank line closes never yields its sources. *)
Lemma scan_unterminated (os : OsPath) (fs : FileSystem) (icuroot mkin_path : string)
  (lines : list string) :
  forall (in_objs : bool) (sources found : list string),
    unterminated lines in_objs = true ->
    scan os fs icuroot mkin_path lines in_objs sources <> ret found.
Proof.
  induction lines as [|raw rest IH]; intros in_objs sources found Hu.
  - rewrite scan_end. discriminate.
  - simpl in Hu. destruct (starts_objects raw) eqn:Ho.
    + rewrite (scan_open _ _ _ _ _ _ _ _ Ho).
      destruct (line_sources _ _ _ _ _) as [e|cpps]; simpl; [discriminate|].
      now apply IH.
    + destruct in_objs; simpl in Hu.
      * destruct (blank raw) eqn:Hb; [discriminate|].
        rewrite scan_continue by (unfold continuation; now rewrite Ho, Hb).
        destruct (line_sources _ _ _ _ _) as [e|cpps]; simpl; [discriminate|].
        now apply IH.
      * rewrite (scan_not_open _ _ _ _ _ _ _ Ho). now apply IH.
Qed.

(** ** The source extractor *)

Section Extraction.

Variable os : OsPath.
Variable fs : FileSystem.
Variable icuroot : string.
Variable mkin_path : string.

(** The scan of a fragment whose list opens with [OBJECTS = content]. *)
Lemma get_sources_fragment (pre : list string) (objline content : string)
  (body tail : list string) :
  readlines fs mkin_path = Some (pre ++ objline :: body ++ tail)%list ->
  forallb (fun raw => negb (starts_objects raw)) pre = true ->
  Py.strip objline = "OBJECTS = " ++ content ->
  forallb continuation body = true ->
  list_end tail ->
  get_sources os fs icuroot mkin_path
  = (cpps <- mapM (get_source os fs icuroot) (list_objects os mkin_path content body) ;;
     finish mkin_path tail (filter_not_none cpps)).
Proof.
  intros Hread Hpre Hobj Hbody Htail.
  destruct (objects_assignment _ _ Hobj) as (Hstart & Hcontent & Hlen).
  rewrite (get_sources_scan _ _ _ _ _ Hread).
  rewrite (scan_fragment _ _ _ _ _ _ _ _ Hpre Hstart Hlen Hbody Htail).
  unfold fragment_objects. now rewrite Hcontent.
Qed.

Lemma resolve_not_ignored (o : string) :
  ignored os icuroot o = false ->
  Py.mem (resolve os fs o) (source_ignore os icuroot) = false.
Proof.
  unfold ignored, resolve. intros H. apply orb_false_iff in H as [Hcpp Hc].
  now destruct (isfile fs (cpp_of os o)).
Qed.

End Extraction.

(** C1.  A fragment is well formed when the lines before the list do not
    start with [OBJECTS], the list opens with a line [OBJECTS = content],
    continues over lines that are neither blank nor another [OBJECTS] line,
    and is closed by a blank line, and when every object it names has a
    [.cpp] or a [.c] sibling on disk and is not on the ignore list.  On such
    a fragment [get_sources] returns one path per object token, in document
    order and with repetitions kept: the [.cpp] sibling if that file exists,
    otherwise the [.c] sibling. *)
Theorem get_sources_declaration_order
  (os : OsPath) (fs : FileSystem) (icuroot mkin_path : string)
  (pre : list string) (objline content : string) (body : list string)
  (closing : string) (rest : list string) :
  readlines fs mkin_path = Some (pre ++ objline :: body ++ closing :: rest)%list ->
  forallb (fun raw => negb (starts_objects raw)) pre = true ->
  Py.strip objline = "OBJECTS = " ++ content ->
  forallb continuation body = true ->
  blank closing = true ->
  (forall o, In o (list_objects os mkin_path content body) ->
             ignored os icuroot o = false /\ has_source os fs o = true) ->
  get_sources os fs icuroot mkin_path
  = ret (map (resolve os fs) (list_objects os mkin_path content body)).
Proof.
  intros Hread Hpre Hobj Hbody Hblank Hobjs.
  rewrite (get_sources_fragment os fs icuroot mkin_path pre objline content body
             (closing :: rest) Hread Hpre Hobj Hbody (blank_line _ _ Hblank)).
  rewrite mapM_resolved by (intros o Ho; right; now apply Hobjs).
  simpl. rewrite filter_resolved. do 2 f_equal.
  apply forallb_filter_id, forallb_forall. intros o Ho.
  destruct (Hobjs o Ho) as [-> _]. reflexivity.
Qed.

Lemma get_sources_declaration_order_witness :
  get_sources Posix.ospath Sample.tree "icu" "icu/source/common/Makefile.in"
  = ret ["icu/source/common/errorcode.cpp"; "icu/source/common/putil.cpp";
         "icu/source/common/umath.c"; "icu/source/common/putil.cpp"].
Proof.
  refine (get_sources_declaration_order Posix.ospath Sample.tree
            "icu" "icu/source/common/Makefile.in"
            ["## Makefile.in for ICU - icuuc" ++ Sample.nl]
            ("OBJECTS = errorcode.o putil.o \" ++ Sample.nl)
            "errorcode.o putil.o \"
            ["umath.o \" ++ Sample.nl; "putil.o" ++ Sample.nl]
            Sample.nl
            ["STATIC_OBJECTS = $(OBJECTS:.o=.$(STATIC_O))" ++ Sample.nl]
            eq_refl eq_refl eq_refl eq_refl eq_refl _).
  intros o Ho. vm_compute in Ho.
  repeat (destruct Ho as [<-|Ho]; [vm_compute; split; reflexivity|]).
  destruct Ho.
Defined.

(** C5.  On a fragment whose list names an object with neither a [.cpp] nor
    a [.c] sibling on disk and not on the ignore list, [get_sources] raises
    the missing-source error, and the error names the first such object
    path of the list; whether a blank line closes the list makes no
    difference. *)
Theorem get_sources_missing_source
  (os : OsPath) (fs : FileSystem) (icuroot mkin_path : string)
  (pre : list string) (objline content : string) (body tail : list string) :
  readlines fs mkin_path = Some (pre ++ objline :: body ++ tail)%list ->
  forallb (fun raw => negb (starts_objects raw)) pre = true ->
  Py.strip objline = "OBJECTS = " ++ content ->
  forallb continuation body = true ->
  list_end tail ->
  (exists o, In o (list_objects os mkin_path content body)
             /\ ignored os icuroot o = false /\ has_source os fs o = false) ->
  exists before o after,
    list_objects os mkin_path content body = (before ++ o :: after)%list
    /\ (forall o', In o' before ->
                   ignored os icuroot o' = true \/ has_source os fs o' = true)
    /\ ignored os icuroot o = false
    /\ has_source os fs o = false
    /\ get_sources os fs icuroot mkin_path
       = raise (Exception [o ++ " has no corresponding source file"]).
Proof.
  intros Hread Hpre Hobj Hbody Htail Hmiss.
  destruct (first_missing os fs icuroot _ Hmiss) as (before & o & after & Heq & Hb & Hi & Hs).
  exists before, o, after. repeat split; try assumption.
  rewrite (get_sources_fragment os fs icuroot mkin_path pre objline content body
             tail Hread Hpre Hobj Hbody Htail).
  rewrite Heq, (mapM_first_missing os fs icuroot before o after Hb Hi Hs).
  reflexivity.
Qed.

Lemma get_sources_missing_source_witness :
  exists before o after,
    list_objects Posix.ospath "icu/source/common/missing.in" "errorcode.o nosuch.o" []
    = (before ++ o :: after)%list
    /\ (forall o', In o' before ->
                   ignored Posix.ospath "icu" o' = true
                   \/ has_source Posix.ospath Sample.tree o' = true)
    /\ ignored Posix.ospath "icu" o = false
    /\ has_source Posix.ospath Sample.tree o = false
    /\ get_sources Posix.ospath Sample.tree "icu" "icu/source/common/missing.in"
       = raise (Exception [o ++ " has no corresponding source file"]).
Proof.
  refine (get_sources_missing_source Posix.ospath Sample.tree
            "icu" "icu/source/common/missing.in"
            [] ("OBJECTS = errorcode.o nosuch.o" ++ Sample.nl) "errorcode.o nosuch.o"
            [] [Sample.nl] eq_refl eq_refl eq_refl eq_refl
            (blank_line Sample.nl [] eq_refl) _).
  exists "icu/source/common/nosuch.o".
  split; [right; left; reflexivity | split; reflexivity].
Defined.

(** C6.  An object whose [.cpp] or [.c] sibling is on the ignore list
    resolves to nothing whatever the disk holds, since the ignore list is
    consulted before the disk.  On a fragment whose other objects all have a
    source, [get_sources] therefore returns the sources of the objects not
    ignored, in order, and no returned path is on the ignore list. *)
Theorem get_sources_ignore_list
  (os : OsPath) (fs : FileSystem) (icuroot mkin_path : string)
  (pre : list string) (objline content : string) (body : list string)
  (closing : string) (rest : list string) :
  readlines fs mkin_path = Some (pre ++ objline :: body ++ closing :: rest)%list ->
  forallb (fun raw => negb (starts_objects raw)) pre = true ->
  Py.strip objline = "OBJECTS = " ++ content ->
  forallb continuation body = true ->
  blank closing = true ->
  (forall o, In o (list_objects os mkin_path content body) ->
             ignored os icuroot o = true \/ has_source os fs o = true) ->
  (forall o, ignored os icuroot o = true -> get_source os fs icuroot o = ret None)
  /\ get_sources os fs icuroot mkin_path
     = ret (map (resolve os fs)
              (filter (fun o => negb (ignored os icuroot o))
                 (list_objects os mkin_path content body)))
  /\ (forall sources src,
        get_sources os fs icuroot mkin_path = ret sources ->
        In src sources -> Py.mem src (source_ignore os icuroot) = false).
Proof.
  intros Hread Hpre Hobj Hbody Hblank Hobjs.
  assert (Hres : get_sources os fs icuroot mkin_path
                 = ret (map (resolve os fs)
                          (filter (fun o => negb (ignored os icuroot o))
                             (list_objects os mkin_path content body)))).
  { rewrite (get_sources_fragment os fs icuroot mkin_path pre objline content body
               (closing :: rest) Hread Hpre Hobj Hbody (blank_line _ _ Hblank)).
    rewrite (mapM_resolved _ _ _ _ Hobjs). simpl. now rewrite filter_resolved. }
  split; [apply get_source_ignored|]. split; [exact Hres|].
  intros sources src Hs Hin. rewrite Hres in Hs. injection Hs as <-.
  apply in_map_iff in Hin as (o & <- & Ho).
  apply filter_In in Ho as [_ Hi]. apply negb_true_iff in Hi.
  now apply resolve_not_ignored.
Qed.

Lemma get_sources_ignore_list_witness :
  get_source Posix.ospath Sample.tree "icu" "icu/source/tools/toolutil/udbgutil.o"
  = ret None
  /\ has_source Posix.ospath Sample.tree "icu/source/tools/toolutil/udbgutil.o" = false
  /\ get_sources Posix.ospath Sample.tree "icu" "icu/source/tools/toolutil/Makefile.in"
     = ret ["icu/source/tools/toolutil/filestrm.c";
            "icu/source/tools/toolutil/toolutil.cpp"].
Proof.
  assert (Hobjs : forall o,
             In o (list_objects Posix.ospath "icu/source/tools/toolutil/Makefile.in"
                     "filestrm.o udbgutil.o \" ["dbgutil.o toolutil.o" ++ Sample.nl]) ->
             ignored Posix.ospath "icu" o = true
             \/ has_source Posix.ospath Sample.tree o = true).
  { intros o Ho. vm_compute in Ho.
    repeat (destruct Ho as [<-|Ho];
            [first [left; reflexivity | right; reflexivity]|]).
    destruct Ho. }
  pose proof (get_sources_ignore_list Posix.ospath Sample.tree
                "icu" "icu/source/tools/toolutil/Makefile.in"
                [] ("OBJECTS = filestrm.o udbgutil.o \" ++ Sample.nl)
                "filestrm.o udbgutil.o \"
                ["dbgutil.o toolutil.o" ++ Sample.nl] Sample.nl []
                eq_refl eq_refl eq_refl eq_refl eq_refl Hobjs) as (Hsrc & Hall & _).
  split; [apply Hsrc; reflexivity|]. split; [reflexivity | exact Hall].
Defined.

(** C7, as the code has it.  When no blank line closes the list before the
    end of the file (or no line starts with [OBJECTS]), [get_sources] never
    returns a list.  It raises the malformed-fragment error when no line
    starts with [OBJECTS].  When the list opens with [OBJECTS = content] and
    runs to the end of the file over lines that are neither blank nor start
    with [OBJECTS], it raises the malformed-fragment error if each of its
    objects is ignored or has a source, and otherwise the missing-source
    error for the first object that is not ignored and has no source. *)
Theorem get_sources_unterminated
  (os : OsPath) (fs : FileSystem) (icuroot mkin_path : string) (lines : list string) :
  readlines fs mkin_path = Some lines ->
  unterminated lines false = true ->
  (forall sources, get_sources os fs icuroot mkin_path <> ret sources)
  /\ (forallb (fun raw => negb (starts_objects raw)) lines = true ->
      get_sources os fs icuroot mkin_path = raise (malformed_fragment mkin_path))
  /\ (forall pre objline content body,
        lines = (pre ++ objline :: body)%list ->
        forallb (fun raw => negb (starts_objects raw)) pre = true ->
        Py.strip objline = "OBJECTS = " ++ content ->
        forallb continuation body = true ->
        (forall o, In o (list_objects os mkin_path content body) ->
                   ignored os icuroot o = true \/ has_source os fs o = true) ->
        get_sources os fs icuroot mkin_path = raise (malformed_fragment mkin_path))
  /\ (forall pre objline content body,
        lines = (pre ++ objline :: body)%list ->
        forallb (fun raw => negb (starts_objects raw)) pre = true ->
        Py.strip objline = "OBJECTS = " ++ content ->
        forallb continuation body = true ->
        (exists o, In o (list_objects os mkin_path content body)
                   /\ ignored os icuroot o = false /\ has_source os fs o = false) ->
        exists before o after,
          list_objects os mkin_path content body = (before ++ o :: after)%list
          /\ (forall o', In o' before ->
                         ignored os icuroot o' = true \/ has_source os fs o' = true)
          /\ ignored os icuroot o = false
          /\ has_source os fs o = false
          /\ get_sources os fs icuroot mkin_path = raise (missing_source o)).
Proof.
  intros Hread Hu. split; [|split; [|split]].
  - intros sources. rewrite (get_sources_scan _ _ _ _ _ Hread).
    now apply scan_unterminated.
  - intros Hnone. rewrite (get_sources_scan _ _ _ _ _ Hread).
    rewrite <- (app_nil_r lines), (scan_skip _ _ _ _ _ _ _ Hnone).
    apply scan_end.
  - intros pre objline content body -> Hpre Hobj Hbody Hobjs.
    rewrite <- (app_nil_r body) in Hread.
    rewrite (get_sources_fragment os fs icuroot mkin_path pre objline content body
               [] Hread Hpre Hobj Hbody end_of_file).
    rewrite (mapM_resolved _ _ _ _ Hobjs). reflexivity.
  - intros pre objline content body -> Hpre Hobj Hbody Hmiss.
    rewrite <- (app_nil_r body) in Hread.
    destruct (first_missing os fs icuroot _ Hmiss)
      as (before & o & after & Heq & Hb & Hi & Hs).
    exists before, o, after. repeat split; try assumption.
    rewrite (get_sources_fragment os fs icuroot mkin_path pre objline content body
               [] Hread Hpre Hobj Hbody end_of_file).
    rewrite Heq, (mapM_first_missing os fs icuroot before o after Hb Hi Hs).
    reflexivity.
Qed.

Lemma get_sources_unterminated_witness :
  ((forall sources,
       get_sources Posix.ospath Sample.tree "icu" "icu/source/common/unterminated.in"
       <> ret sources)
   /\ get_sources Posix.ospath Sample.tree "icu" "icu/source/common/unterminated.in"
      = raise (Exception
                 ["Could not extract sources from icu/source/common/unterminated.in"]))
  /\ exists before o after,
       list_objects Posix.ospath "icu/source/common/missing_unterminated.in" "nosuch.o" []
       = (before ++ o :: after)%list
       /\ (forall o', In o' before ->
                      ignored Posix.ospath "icu" o' = true
                      \/ has_source Posix.ospath Sample.tree o' = true)
       /\ ignored Posix.ospath "icu" o = false
       /\ has_source Posix.ospath Sample.tree o = false
       /\ get_sources Posix.ospath Sample.tree "icu"
            "icu/source/common/missing_unterminated.in"
          = raise (missing_source o).
Proof.
  split.
  - destruct (get_sources_unterminated Posix.ospath Sample.tree
                "icu" "icu/source/common/unterminated.in" Sample.unterminated_mk
                eq_refl eq_refl) as (Hnever & _ & Hlist & _).
    split; [exact Hnever|].
    refine (Hlist [] ("OBJECTS = errorcode.o \" ++ Sample.nl) "errorcode.o \"
              ["putil.o" ++ Sample.nl] eq_refl eq_refl eq_refl eq_refl _).
    intros o Ho. vm_compute in Ho.
    repeat (destruct Ho as [<-|Ho]; [right; reflexivity|]).
    destruct Ho.
  - destruct (get_sources_unterminated Posix.ospath Sample.tree
                "icu" "icu/source/common/missing_unterminated.in"
                Sample.missing_unterminated_mk eq_refl eq_refl) as (_ & _ & _ & Hmiss).
    refine (Hmiss [] ("OBJECTS = nosuch.o" ++ Sample.nl) "nosuch.o" []
              eq_refl eq_refl eq_refl eq_refl _).
    exists "icu/source/common/nosuch.o".
    split; [left; reflexivity | split; reflexivity].
Defined.

(** C7 as stated fails: the list below is cut short by the end of the file,
    and [get_sources] raises the missing-source error for its object, not
    the malformed-fragment error. *)
Lemma get_sources_unterminated_counterexample :
  readlines Sample.tree "icu/source/common/missing_unterminated.in"
  = Some ["OBJECTS = nosuch.o" ++ Sample.nl]
  /\ unterminated ["OBJECTS = nosuch.o" ++ Sample.nl] false = true
  /\ get_sources Posix.ospath Sample.tree "icu" "icu/source/common/missing_unterminated.in"
     = raise (Exception ["icu/source/common/nosuch.o has no corresponding source file"])
  /\ get_sources Posix.ospath Sample.tree "icu" "icu/source/common/missing_unterminated.in"
     <> raise (malformed_fragment "icu/source/common/missing_unterminated.in").
Proof.
  split; [reflexivity|]. split; [reflexivity|]. split; [reflexivity|].
  vm_compute. discriminate.
Qed.

(** C10.  When the first line that starts with [OBJECTS] is at most ten
    characters long once stripped, nothing is left of it from index 10 on,
    and [get_sources] raises [IndexError] on taking the last character of
    the empty string: none of the errors the script raises by itself. *)
Theorem get_sources_short_objects_line
  (os : OsPath) (fs : FileSystem) (icuroot mkin_path : string)
  (pre : list string) (objline : string) (rest : list string) :
  readlines fs mkin_path = Some (pre ++ objline :: rest)%list ->
  forallb (fun raw => negb (starts_objects raw)) pre = true ->
  starts_objects objline = true ->
  Py.len (Py.strip objline) <= 10 ->
  Py.slice_from (Py.strip objline) 10 = ""
  /\ Py.getitem "" (Py.len "" - 1) = raise (IndexError "string index out of range")
  /\ get_sources os fs icuroot mkin_path
     = raise (IndexError "string index out of range")
  /\ (forall args, get_sources os fs icuroot mkin_path <> raise (Exception args)).
Proof.
  intros Hread Hpre Hobj Hlen.
  pose proof (slice_from_beyond _ _ Hlen) as Hslice.
  assert (Hres : get_sources os fs icuroot mkin_path
                 = raise (IndexError "string index out of range")).
  { rewrite (get_sources_scan _ _ _ _ _ Hread).
    rewrite (scan_skip _ _ _ _ _ _ _ Hpre), (scan_open _ _ _ _ _ _ _ _ Hobj).
    rewrite Hslice, line_sources_empty. reflexivity. }
  split; [exact Hslice|]. split; [reflexivity|]. split; [exact Hres|].
  intros args. rewrite Hres. discriminate.
Qed.

Lemma get_sources_short_objects_line_witness :
  get_sources Posix.ospath Sample.tree "icu" "icu/source/common/bare.in"
  = raise (IndexError "string index out of range").
Proof.
  refine (proj1 (proj2 (proj2
            (get_sources_short_objects_line Posix.ospath Sample.tree
               "icu" "icu/source/common/bare.in"
               [] ("OBJECTS =" ++ Sample.nl)
               ["errorcode.o" ++ Sample.nl; Sample.nl]
               eq_refl eq_refl eq_refl _)))).
  vm_compute. discriminate.
Defined.

(** ** The header lister *)

Lemma filter_map_commute {A B} (f : B -> bool) (g : A -> B) (l : list A) :
  filter f (map g l) = map g (filter (fun a => f (g a)) l).
Proof.
  induction l as [|a l IH]; simpl; [reflexivity|].
  destruct (f (g a)); simpl; now rewrite IH.
Qed.

Lemma filter_filter {A} (p q : A -> bool) (l : list A) :
  filter q (filter p l) = filter (fun a => p a && q a) l.
Proof.
  induction l as [|a l IH]; simpl; [reflexivity|].
  destruct (p a); simpl; [destruct (q a)|]; now rewrite IH.
Qed.

(** C8.  For a directory, [get_headers] returns exactly the joined paths of
    the entries of the directory whose extension is [.h] and which are not
    on the header ignore list, in listing order; for a path that is not a
    directory it raises the invalid-directory error. *)
Theorem get_headers_listing
  (os : OsPath) (fs : FileSystem) (icuroot headers_path : string) :
  (isdir fs headers_path = true ->
   get_headers os fs icuroot headers_path
   = ret (map (path_join os headers_path)
            (filter (fun entry =>
                       String.eqb (snd (splitext os (path_join os headers_path entry))) ".h"
                       && negb (Py.mem (path_join os headers_path entry)
                                  (header_ignore os icuroot)))
               (listdir fs headers_path)))
   /\ (forall headers h,
         get_headers os fs icuroot headers_path = ret headers ->
         In h headers <->
         exists entry,
           In entry (listdir fs headers_path)
           /\ h = path_join os headers_path entry
           /\ snd (splitext os h) = ".h"
           /\ Py.mem h (header_ignore os icuroot) = false))
  /\ (isdir fs headers_path = false ->
      get_headers os fs icuroot headers_path
      = raise (Exception [headers_path ++ " is not a valid headers path"])).
Proof.
  split.
  - intros Hdir.
    assert (Hres : get_headers os fs icuroot headers_path
                   = ret (map (path_join os headers_path)
                            (filter (fun entry =>
                               String.eqb (snd (splitext os (path_join os headers_path entry))) ".h"
                               && negb (Py.mem (path_join os headers_path entry)
                                          (header_ignore os icuroot)))
                               (listdir fs headers_path)))).
    { unfold get_headers. rewrite Hdir. simpl.
      now rewrite filter_map_commute, filter_map_commute, filter_filter. }
    split; [exact Hres|].
    intros headers h Hh. rewrite Hres in Hh. injection Hh as <-.
    rewrite in_map_iff. split.
    + intros (entry & <- & Hin). apply filter_In in Hin as [Hin Hkeep].
      apply andb_true_iff in Hkeep as [Hext Hign].
      exists entry. repeat split; try assumption.
      * now apply String.eqb_eq.
      * now apply negb_true_iff.
    + intros (entry & Hin & -> & Hext & Hign).
      exists entry. split; [reflexivity|]. apply filter_In. split; [assumption|].
      apply andb_true_iff. split; [now apply String.eqb_eq | now apply negb_true_iff].
  - intros Hdir. unfold get_headers. rewrite Hdir. reflexivity.
Qed.

Lemma get_headers_listing_witness :
  listdir Sample.tree "icu/source/tools/toolutil" = ["a.h"; "b.c"; "udbgutil.h"; "dbgutil.h"]
  /\ get_headers Posix.ospath Sample.tree "icu" "icu/source/tools/toolutil"
     = ret ["icu/source/tools/toolutil/a.h"]
  /\ get_headers Posix.ospath Sample.tree "icu" "icu/source/common/Makefile.in"
     = raise (Exception ["icu/source/common/Makefile.in is not a valid headers path"]).
Proof.
  split; [reflexivity|]. split.
  - exact (proj1 (proj1 (get_headers_listing Posix.ospath Sample.tree
                           "icu" "icu/source/tools/toolutil") eq_refl)).
  - exact (proj2 (get_headers_listing Posix.ospath Sample.tree
                    "icu" "icu/source/common/Makefile.in") eq_refl).
Defined.

(** ** The property file *)

Lemma wbind_success {A B} (m : writer A) (k : A -> writer B)
  (out out' : list string) (b : B) :
  wbind m k out = (out', ret b) ->
  exists a mid, m out = (mid, ret a) /\ k a mid = (out', ret b).
Proof.
  unfold wbind. destruct (m out) as [mid [e|a]]; intros H; [discriminate|].
  now exists a, mid.
Qed.

Lemma lift_success {A} (r : result A) (out mid : list string) (a : A) :
  lift r out = (mid, ret a) -> mid = out /\ r = ret a.
Proof. unfold lift. intros H. injection H as <- ->. now split. Qed.

Lemma write_success (s : string) (out mid : list string) (u : unit) :
  write s out = (mid, ret u) -> mid = (out ++ [s])%list.
Proof. unfold write. intros H. now injection H as <-. Qed.

Lemma fields_cons (sep : ascii -> bool) (l : list ascii) :
  exists w ws, Py.fields sep l = w :: ws.
Proof.
  induction l as [|c l (w & ws & IH)]; simpl; [now exists [], []|].
  destruct (sep c); [now eexists _, _|]. rewrite IH. now eexists _, _.
Qed.

Lemma fields_no_separator (sep : ascii -> bool) (l : list ascii) :
  forallb (fun c => negb (sep c)) l = true -> Py.fields sep l = [l].
Proof.
  induction l as [|c l IH]; simpl; [reflexivity|]. intros H.
  apply andb_true_iff in H as [Hc Hl]. apply negb_true_iff in Hc.
  now rewrite Hc, (IH Hl).
Qed.

Lemma split_on_no_separator (c : ascii) (s : string) :
  forallb (fun a => negb (Ascii.eqb c a)) (Py.chars s) = true ->
  Py.split_on c s = [s].
Proof.
  intros H. unfold Py.split_on. rewrite (fields_no_separator _ _ H). simpl.
  now rewrite str_chars.
Qed.

(** The two subscripts of [version_parts] always succeed. *)
Lemma version_parts_major (version : string) :
  list_getitem (Py.split_on "." version) 0 = ret (version_major version).
Proof.
  unfold version_major, Py.split_on.
  destruct (fields_cons (Ascii.eqb ".") (Py.chars version)) as (w & ws & ->).
  reflexivity.
Qed.

Lemma version_parts_minor (version : string) :
  (if 1 <? Z.of_nat (List.length (Py.split_on "." version))
   then list_getitem (Py.split_on "." version) 1 else ret "0")
  = ret (version_minor version).
Proof.
  unfold version_minor, Py.split_on.
  destruct (fields_cons (Ascii.eqb ".") (Py.chars version)) as (w & ws & ->).
  destruct ws as [|m ws]; [reflexivity|].
  simpl List.length. destruct (Z.ltb_spec 1 (Z.of_nat (S (S (List.length (map Py.str ws))))));
    [reflexivity | lia].
Qed.

Lemma format_version_field (name value : string) :
  Py.format no_newline_prop_template [name; value] = ret (version_field name value).
Proof. reflexivity. Qed.

Ltac wstep H :=
  let a := fresh "a" in
  let mid := fresh "mid" in
  let Hm := fresh "Hm" in
  apply wbind_success in H as (a & mid & Hm & H).

(** C9.  Whenever [create_msvc_props] completes, the file holds, one after
    the other, the [IcuVersionMajor] field with the part of the version
    before its first dot and the [IcuVersionMinor] field with the part
    after it, or [0] when the version has no dot: [61] and [1] for the
    version [61.1]. *)
Theorem create_msvc_props_version
  (os : OsPath) (fs : FileSystem)
  (script_file chakra_icu_root icu_sources_root version : string)
  (written : list string) :
  snd (create_msvc_props os fs script_file chakra_icu_root icu_sources_root version)
  = (written, ret tt) ->
  (exists before after,
      written = (before
                 ++ [version_field "VersionMajor" (version_major version);
                     version_field "VersionMinor" (version_minor version)]
                 ++ after)%list)
  /\ (version = "61.1" ->
      version_major version = "61" /\ version_minor version = "1")
  /\ (no_dot version = true ->
      version_major version = version /\ version_minor version = "0").
Proof.
  intros H. split; [|split].
  - unfold create_msvc_props in H. cbn [snd] in H.
    wstep H. wstep H. wstep H. wstep H. wstep H.
    cbv zeta in H.
    wstep H. apply lift_success in Hm4 as [-> Hmajor].
    rewrite version_parts_major in Hmajor. injection Hmajor as <-.
    wstep H. apply lift_success in Hm4 as [-> Hf]. rewrite format_version_field in Hf.
    injection Hf as <-.
    wstep H. apply write_success in Hm4 as ->.
    wstep H. apply lift_success in Hm4 as [-> Hminor].
    rewrite version_parts_minor in Hminor. injection Hminor as <-.
    wstep H. apply lift_success in Hm4 as [-> Hf]. rewrite format_version_field in Hf.
    injection Hf as <-.
    wstep H. apply write_success in Hm4 as ->.
    wstep H. apply lift_success in Hm4 as [-> Hdir].
    wstep H. apply write_success in Hm4 as ->.
    wstep H. apply lift_success in Hm4 as [-> Hinc].
    wstep H. apply write_success in Hm4 as ->.
    apply write_success in H as ->.
    eexists mid3, [_; _; conclusion].
    repeat rewrite <- app_assoc. reflexivity.
  - intros ->. split; reflexivity.
  - intros Hno. unfold version_major, version_minor.
    rewrite (split_on_no_separator "." version Hno). split; reflexivity.
Qed.

Lemma create_msvc_props_version_witness :
  (exists before after,
      fst (snd (create_msvc_props Posix.ospath Sample.tree "tools/configure_icu.py"
                  "deps/Chakra.ICU" "icu" "61.1"))
      = (before
         ++ ["
    <IcuVersionMajor>61</IcuVersionMajor>"; "
    <IcuVersionMinor>1</IcuVersionMinor>"]
         ++ after)%list)
  /\ (exists before after,
        fst (snd (create_msvc_props Posix.ospath Sample.tree "tools/configure_icu.py"
                    "deps/Chakra.ICU" "icu" "61"))
        = (before
           ++ ["
    <IcuVersionMajor>61</IcuVersionMajor>"; "
    <IcuVersionMinor>0</IcuVersionMinor>"]
           ++ after)%list).
Proof.
  split.
  - refine (proj1 (create_msvc_props_version Posix.ospath Sample.tree
                     "tools/configure_icu.py" "deps/Chakra.ICU" "icu" "61.1" _ _)).
    vm_compute. reflexivity.
  - refine (proj1 (create_msvc_props_version Posix.ospath Sample.tree
                     "tools/configure_icu.py" "deps/Chakra.ICU" "icu" "61" _ _)).
    vm_compute. reflexivity.
Defined.

(** ** The download and its verification *)

Lemma str_app (l1 l2 : list ascii) : Py.str (l1 ++ l2) = Py.str l1 ++ Py.str l2.
Proof. induction l1 as [|c l1 IH]; simpl; [reflexivity | now rewrite IH]. Qed.

Lemma len_append (p s : string) : Py.len (p ++ s) = Py.len p + Py.len s.
Proof. rewrite !len_chars, chars_append, length_app. lia. Qed.

(** A manifest line is relevant exactly when it ends with the archive
    name. *)
Lemma is_relevant_suffix (archive_file line : string) :
  is_relevant archive_file line = true <-> exists p, line = p ++ archive_file.
Proof.
  unfold is_relevant. rewrite String.eqb_eq. split.
  - intros H. unfold Py.slice_from in H.
    exists (Py.str (firstn (Py.clamp (Py.len line) (Py.len line - Py.len archive_file))
                      (Py.chars line))).
    rewrite <- H at 2. rewrite <- str_app, firstn_skipn. symmetry. apply str_chars.
  - intros (p & ->). rewrite len_append.
    replace (Py.len p + Py.len archive_file - Py.len archive_file) with (Py.len p) by lia.
    apply slice_from_app.
Qed.

Section DownloadFacts.

Variable os : OsPath.
Variable host : Host.
Variable icuroot : string.
Variable version : string.
Variable yes : bool.

Lemma format_archive_file :
  Py.format "icu4c-{0}-src.{1}"
    [Py.replace "." "_" version; if String.eqb (os_name host) "nt" then "zip" else "tgz"]
  = ret (archive_file_of host version).
Proof. unfold archive_file_of. destruct (String.eqb _ _); reflexivity. Qed.

Lemma format_md5_file :
  Py.format "icu4c-src-{0}.md5" [Py.replace "." "_" version] = ret (md5_file_of version).
Proof. reflexivity. Qed.

Lemma format_archive_url :
  Py.format "http://download.icu-project.org/files/icu4c/{0}/{1}"
    [version; archive_file_of host version]
  = ret (archive_url_of host version).
Proof. unfold archive_url_of. simpl. now rewrite append_empty_r. Qed.

Lemma format_md5_url :
  Py.format "https://ssl.icu-project.org/files/icu4c/{0}/{1}" [version; md5_file_of version]
  = ret (md5_url_of version).
Proof. unfold md5_url_of. simpl. now rewrite append_empty_r. Qed.

Lemma format_license (url rule : string) :
  exists text, Py.format license_template [url; rule] = ret text.
Proof. eexists. reflexivity. Qed.

Lemma consent_given :
  consent host yes = true ->
  (if negb yes then
     if negb (String.eqb (raw_input host "Do you agree to these terms? [Y/n] ") "")
        && negb (String.eqb (raw_input host "Do you agree to these terms? [Y/n] ") "y")
        && negb (String.eqb (raw_input host "Do you agree to these terms? [Y/n] ") "Y")
     then raise (SystemExit 0)
     else ret tt
   else ret tt) = ret tt.
Proof.
  unfold consent. destruct yes; simpl; [reflexivity|].
  destruct (String.eqb _ ""), (String.eqb _ "y"), (String.eqb _ "Y"); simpl;
    intros H; first [reflexivity | discriminate].
Qed.

(** With consent given, both transfers done and the manifest decoded,
    [download_icu] comes down to the two checks on the manifest. *)
Lemma download_icu_checks (archive_path download manifest : string) :
  consent host yes = true ->
  urlretrieve host (archive_url_of host version) = Some archive_path ->
  read_binary host archive_path = Some download ->
  urlopen_read host (md5_url_of version) = Some manifest ->
  Py.is_ascii manifest = true ->
  download_icu os host icuroot version yes
  = (if negb (Z.of_nat (List.length (relevant_lines host version manifest)) =? 1)
     then raise format_error
     else
       correct_hash <- list_getitem (relevant_lines host version manifest) 0 ;;
       correct_hash <- list_getitem (Py.split_on " " correct_hash) 0 ;;
       if String.eqb correct_hash (md5_hexdigest host download) then ret archive_path
       else raise format_error).
Proof.
  intros Hyes Hget Hread Hopen Hascii. unfold download_icu.
  rewrite format_archive_file. cbn [bind ret].
  rewrite format_md5_file. cbn [bind ret].
  rewrite format_archive_url. cbn [bind ret].
  rewrite format_md5_url. cbn [bind ret].
  destruct (format_license (archive_url_of host version) (repeat_string "-" 80))
    as (text & ->). cbn [bind ret].
  rewrite (consent_given Hyes). cbn [bind ret].
  rewrite Hget. cbn [bind ret io].
  rewrite Hread. cbn [bind ret io].
  rewrite Hopen. cbn [bind ret io].
  unfold Py.decode_ascii. rewrite Hascii. cbn [bind ret].
  fold (relevant_lines host version manifest).
  reflexivity.
Qed.

Lemma split_on_first (c : ascii) (s : string) :
  list_getitem (Py.split_on c s) 0 = ret (hd "" (Py.split_on c s)).
Proof.
  unfold Py.split_on.
  destruct (fields_cons (Ascii.eqb c) (Py.chars s)) as (w & ws & ->). reflexivity.
Qed.

(** With exactly one relevant line, the download is accepted exactly when
    the first token of that line is the digest of the downloaded bytes. *)
Lemma download_icu_verifies (archive_path download manifest line : string) :
  consent host yes = true ->
  urlretrieve host (archive_url_of host version) = Some archive_path ->
  read_binary host archive_path = Some download ->
  urlopen_read host (md5_url_of version) = Some manifest ->
  Py.is_ascii manifest = true ->
  relevant_lines host version manifest = [line] ->
  download_icu os host icuroot version yes = ret archive_path
  <-> first_token line = md5_hexdigest host download.
Proof.
  intros Hyes Hget Hread Hopen Hascii Hline.
  rewrite (download_icu_checks _ _ _ Hyes Hget Hread Hopen Hascii), Hline.
  cbn [List.length negb Z.of_nat Pos.of_succ_nat Z.eqb Pos.eqb list_getitem nth_error
       bind ret].
  rewrite split_on_first. cbn [bind ret]. fold (first_token line).
  destruct (String.eqb_spec (first_token line) (md5_hexdigest host download)) as [He|Hne].
  - split; [intros _; exact He | reflexivity].
  - split; [discriminate | intros He; contradiction].
Qed.

Ltac other_exn := unfold raise, ret, io; cbn; discriminate.

(** No run of [download_icu] ends in [Exception]. *)
Lemma download_icu_never_exception (args : list string) :
  download_icu os host icuroot version yes <> raise (Exception args).
Proof.
  unfold download_icu.
  rewrite format_archive_file. cbn [bind ret].
  rewrite format_md5_file. cbn [bind ret].
  rewrite format_archive_url. cbn [bind ret].
  rewrite format_md5_url. cbn [bind ret].
  destruct (format_license (archive_url_of host version) (repeat_string "-" 80))
    as (text & ->). cbn [bind ret].
  destruct (if negb yes then _ else _) as [e|[]] eqn:Hc.
  - destruct (negb yes); [|discriminate Hc].
    destruct (_ && _); [|discriminate Hc]. unfold raise in Hc. injection Hc as <-.
    other_exn.
  - cbn [bind ret].
    destruct (urlretrieve host _) as [archive_path|]; [|other_exn].
    cbn [bind ret io].
    destruct (read_binary host _) as [download|]; [|other_exn].
    cbn [bind ret io].
    destruct (urlopen_read host _) as [manifest|]; [|other_exn].
    cbn [bind ret io].
    unfold Py.decode_ascii. destruct (Py.is_ascii manifest); [|other_exn].
    cbn [bind ret].
    destruct (Z.eqb _ 1); cbn [negb]; [|other_exn].
    destruct (list_getitem _ 0) as [e|line] eqn:Hl.
    + unfold list_getitem in Hl. destruct (nth_error _ _); [discriminate Hl|].
      unfold raise in Hl. injection Hl as <-. other_exn.
    + cbn [bind ret]. rewrite split_on_first. cbn [bind ret].
      destruct (String.eqb (hd _ _) _); other_exn.
Qed.

End DownloadFacts.

(** C4.  Once the manifest is fetched and decoded, each failure branch of
    [download_icu] applies a format string with two [%s] to one argument:
    the formatting raises [TypeError], so that is what [download_icu] raises
    when the manifest has no line or several lines for the archive, and
    when the one line carries another digest; an [Exception] with the
    intended message is never raised. *)
Theorem download_icu_failure_is_type_error
  (os : OsPath) (host : Host) (icuroot version : string) (yes : bool)
  (archive_path download manifest : string) :
  consent host yes = true ->
  urlretrieve host (archive_url_of host version) = Some archive_path ->
  read_binary host archive_path = Some download ->
  urlopen_read host (md5_url_of version) = Some manifest ->
  Py.is_ascii manifest = true ->
  Py.percent "Could not find md5 hash for %s in %s" [archive_file_of host version]
  = raise (TypeError "not enough arguments for format string")
  /\ (forall correct_hash,
        Py.percent "MD5 checksums do not match. Expected %s, got %s" [correct_hash]
        = raise (TypeError "not enough arguments for format string"))
  /\ (List.length (relevant_lines host version manifest) <> 1%nat ->
      download_icu os host icuroot version yes
      = raise (TypeError "not enough arguments for format string"))
  /\ (forall line,
        relevant_lines host version manifest = [line] ->
        first_token line <> md5_hexdigest host download ->
        download_icu os host icuroot version yes
        = raise (TypeError "not enough arguments for format string"))
  /\ (forall args, download_icu os host icuroot version yes <> raise (Exception args)).
Proof.
  intros Hyes Hget Hread Hopen Hascii.
  split; [reflexivity|]. split; [reflexivity|]. split; [|split].
  - intros Hn.
    rewrite (download_icu_checks _ _ _ _ _ _ _ _ Hyes Hget Hread Hopen Hascii).
    destruct (Z.eqb_spec (Z.of_nat (List.length (relevant_lines host version manifest))) 1)
      as [He|_]; [|reflexivity].
    exfalso. apply Hn. lia.
  - intros line Hline Hne.
    rewrite (download_icu_checks _ _ _ _ _ _ _ _ Hyes Hget Hread Hopen Hascii), Hline.
    cbn [List.length negb Z.of_nat Pos.of_succ_nat Z.eqb Pos.eqb list_getitem nth_error
         bind ret].
    rewrite split_on_first. cbn [bind ret]. fold (first_token line).
    destruct (String.eqb_spec (first_token line) (md5_hexdigest host download));
      [contradiction | reflexivity].
  - intros args. apply download_icu_never_exception.
Qed.

Lemma download_icu_failure_is_type_error_witness :
  download_icu Posix.ospath (Sample.host Sample.silent_manifest) "deps/Chakra.ICU" "61.1" true
  = raise (TypeError "not enough arguments for format string")
  /\ download_icu Posix.ospath (Sample.host Sample.double_manifest) "deps/Chakra.ICU" "61.1" true
     = raise (TypeError "not enough arguments for format string")
  /\ download_icu Posix.ospath (Sample.host Sample.wrong_manifest) "deps/Chakra.ICU" "61.1" true
     = raise (TypeError "not enough arguments for format string").
Proof.
  split; [|split].
  - refine (proj1 (proj2 (proj2
              (download_icu_failure_is_type_error Posix.ospath
                 (Sample.host Sample.silent_manifest) "deps/Chakra.ICU" "61.1" true
                 "/tmp/tmpXq3vWk" "ICU 61.1 SOURCE ARCHIVE" Sample.silent_manifest
                 eq_refl eq_refl eq_refl eq_refl eq_refl))) _).
    vm_compute. discriminate.
  - refine (proj1 (proj2 (proj2
              (download_icu_failure_is_type_error Posix.ospath
                 (Sample.host Sample.double_manifest) "deps/Chakra.ICU" "61.1" true
                 "/tmp/tmpXq3vWk" "ICU 61.1 SOURCE ARCHIVE" Sample.double_manifest
                 eq_refl eq_refl eq_refl eq_refl eq_refl))) _).
    vm_compute. discriminate.
  - refine (proj1 (proj2 (proj2 (proj2
              (download_icu_failure_is_type_error Posix.ospath
                 (Sample.host Sample.wrong_manifest) "deps/Chakra.ICU" "61.1" true
                 "/tmp/tmpXq3vWk" "ICU 61.1 SOURCE ARCHIVE" Sample.wrong_manifest
                 eq_refl eq_refl eq_refl eq_refl eq_refl))))
              "00000000000000000000000000000000  icu4c-61_1-src.tgz" eq_refl _).
    vm_compute. discriminate.
Defined.

(** C2 on a manifest whose one line for the archive carries a digest other
    than that of the downloaded bytes: the comparison fails, and the run
    ends in the [TypeError] of the message formatting rather than in an
    [Exception] saying that the checksums do not match.  With the right
    digest on that line the archive path is returned. *)
Theorem download_icu_mismatch_evaluation :
  relevant_lines (Sample.host Sample.wrong_manifest) "61.1" Sample.wrong_manifest
  = ["00000000000000000000000000000000  icu4c-61_1-src.tgz"]
  /\ first_token "00000000000000000000000000000000  icu4c-61_1-src.tgz"
     <> md5_hexdigest (Sample.host Sample.wrong_manifest) "ICU 61.1 SOURCE ARCHIVE"
  /\ download_icu Posix.ospath (Sample.host Sample.wrong_manifest)
       "deps/Chakra.ICU" "61.1" true
     = raise (TypeError "not enough arguments for format string")
  /\ download_icu Posix.ospath (Sample.host Sample.good_manifest)
       "deps/Chakra.ICU" "61.1" true
     = ret "/tmp/tmpXq3vWk".
Proof.
  split; [reflexivity|]. split; [vm_compute; discriminate|].
  split; reflexivity.
Qed.

(** C3 on a manifest with no line for the archive and on one with two: the
    run ends in the [TypeError] of the message formatting, not in an
    [Exception] naming the archive. *)
Theorem download_icu_not_found_evaluation :
  relevant_lines (Sample.host Sample.silent_manifest) "61.1" Sample.silent_manifest = []
  /\ download_icu Posix.ospath (Sample.host Sample.silent_manifest)
       "deps/Chakra.ICU" "61.1" true
     = raise (TypeError "not enough arguments for format string")
  /\ List.length
       (relevant_lines (Sample.host Sample.double_manifest) "61.1" Sample.double_manifest)
     = 2%nat
  /\ download_icu Posix.ospath (Sample.host Sample.double_manifest)
       "deps/Chakra.ICU" "61.1" true
     = raise (TypeError "not enough arguments for format string").
Proof. repeat split; reflexivity. Qed.

(** Declining at the prompt ends the run with exit status 0. *)
Example download_icu_declined :
  download_icu Posix.ospath (Sample.host Sample.good_manifest)
    "deps/Chakra.ICU" "61.1" false
  = raise (SystemExit 0).
Proof. reflexivity. Qed.

(** A sanity check of the model against known values of [posixpath]. *)
Example posix_model_values :
  Posix.splitext "source/common/putil.o" = ("source/common/putil", ".o")
  /\ Posix.splitext "dir.d/.bashrc" = ("dir.d/.bashrc", "")
  /\ Posix.splitext "a.tar.gz" = ("a.tar", ".gz")
  /\ Posix.dirname "icu/source/common/Makefile.in" = "icu/source/common"
  /\ Posix.dirname "/Makefile.in" = "/"
  /\ Posix.dirname "Makefile.in" = ""
  /\ Posix.basename "tools/configure_icu.py" = "configure_icu.py"
  /\ Posix.join "icu" "source" = "icu/source"
  /\ Posix.join "" "a.o" = "a.o"
  /\ Posix.join "icu/" "/abs" = "/abs"
  /\ Posix.normpath "source/tools/toolutil/udbgutil.cpp"
     = "source/tools/toolutil/udbgutil.cpp"
  /\ Posix.normpath "a//b/./c/../d" = "a/b/d"
  /\ Posix.normpath "//a/../../b" = "//b"
  /\ Posix.normpath "../x" = "../x".
Proof. repeat split; reflexivity. Qed.

(** Values of the string primitives, as Python computes them. *)
Example py_string_values :
  Py.strip "  OBJECTS = a.o b.o \
" = "OBJECTS = a.o b.o \"
  /\ Py.slice_to "OBJECTS = a.o" 7 = "OBJECTS"
  /\ Py.slice_from "OBJECTS = a.o" 10 = "a.o"
  /\ Py.slice_from "OBJECTS =" 10 = ""
  /\ Py.slice_from "ab" (-3) = "ab"
  /\ Py.slice_from "abcd" (-2) = "cd"
  /\ Py.getitem "" (-1) = inl (IndexError "string index out of range")
  /\ Py.getitem "ab\" 2 = inr "\"%char
  /\ Py.split " a.o   b.o	c.o " = ["a.o"; "b.o"; "c.o"]
  /\ Py.split "" = []
  /\ Py.split_on "." "61.1" = ["61"; "1"]
  /\ Py.split_on "." "61" = ["61"]
  /\ Py.split_on "." "" = [""]
  /\ Py.split_on " " "a  b" = ["a"; ""; "b"]
  /\ Py.capitalize "i18n" = "I18n"
  /\ Py.capitalize "toolutil" = "Toolutil"
  /\ Py.replace "." "_" "61.1" = "61_1"
  /\ Py.join ";" ["a"; "b"; "c"] = "a;b;c"
  /\ Py.percent "%s is not a valid headers path" ["x"] = inr "x is not a valid headers path"
  /\ Py.percent "%s in %s" ["x"] = inl (TypeError "not enough arguments for format string")
  /\ Py.percent "%s" ["x"; "y"]
     = inl (TypeError "not all arguments converted during string formatting")
  /\ Py.format "icu4c-{0}-src.{1}" ["61_1"; "tgz"] = inr "icu4c-61_1-src.tgz".
Proof. repeat split; reflexivity. Qed.

(** ** Further properties of the source extractor *)

Section ScanInvariants.

Variable os : OsPath.
Variable fs : FileSystem.
Variable icuroot : string.
Variable mkin_path : string.

Abbreviation vetted := (vetted os fs icuroot).

Lemma get_source_vetted (o src : string) :
  get_source os fs icuroot o = ret (Some src) -> vetted src.
Proof.
  unfold get_source. cbv zeta.
  destruct (Py.mem _ _ || Py.mem _ _) eqn:Hi; [discriminate|].
  apply orb_false_iff in Hi as [Hcpp Hc].
  destruct (isfile fs (fst (splitext os o) ++ ".cpp")) eqn:Fcpp.
  - intros H. injection H as <-. now split.
  - destruct (isfile fs (fst (splitext os o) ++ ".c")) eqn:Fc.
    + intros H. injection H as <-. now split.
    + discriminate.
Qed.

Lemma mapM_get_source_vetted (objs : list string) :
  forall cpps, mapM (get_source os fs icuroot) objs = ret cpps ->
               Forall vetted (filter_not_none cpps).
Proof.
  induction objs as [|o objs IH]; simpl; intros cpps H.
  - injection H as <-. constructor.
  - destruct (get_source os fs icuroot o) as [e|r] eqn:Ho; [discriminate|].
    simpl in H. destruct (mapM _ objs) as [e|rs]; [discriminate|].
    simpl in H. injection H as <-.
    destruct r as [src|]; simpl; [constructor|]; auto.
    exact (get_source_vetted _ _ Ho).
Qed.

Lemma line_sources_vetted (line : string) (cpps : list string) :
  line_sources os fs icuroot mkin_path line = ret cpps -> Forall vetted cpps.
Proof.
  unfold line_sources. cbv zeta.
  destruct (Py.getitem line (Py.len line - 1)) as [e|last]; [discriminate|].
  cbn [bind]. destruct (mapM _ _) as [e|rs] eqn:Hm; [discriminate|].
  cbn [bind]. intros H. injection H as <-.
  exact (mapM_get_source_vetted _ _ Hm).
Qed.

Lemma scan_vetted (lines : list string) :
  forall (in_objs : bool) (sources out : list string),
    Forall vetted sources ->
    scan os fs icuroot mkin_path lines in_objs sources = ret out ->
    Forall vetted out.
Proof.
  induction lines as [|raw rest IH]; intros in_objs sources out Hs H.
  - rewrite scan_end in H. discriminate.
  - destruct (starts_objects raw) eqn:Ho.
    + rewrite (scan_open _ _ _ _ _ _ _ _ Ho) in H.
      destruct (line_sources _ _ _ _ _) as [e|cpps] eqn:Hl; [discriminate|].
      cbn [bind] in H. apply (IH _ _ _ (proj2 (Forall_app _ _ _)
                                          (conj Hs (line_sources_vetted _ _ Hl))) H).
    + destruct in_objs.
      * destruct (blank raw) eqn:Hb.
        -- rewrite (scan_close _ _ _ _ _ _ _ Hb) in H. injection H as <-. exact Hs.
        -- rewrite scan_continue in H by (unfold continuation; now rewrite Ho, Hb).
           destruct (line_sources _ _ _ _ _) as [e|cpps] eqn:Hl; [discriminate|].
           cbn [bind] in H. apply (IH _ _ _ (proj2 (Forall_app _ _ _)
                                               (conj Hs (line_sources_vetted _ _ Hl))) H).
      * rewrite (scan_not_open _ _ _ _ _ _ _ Ho) in H. exact (IH _ _ _ Hs H).
Qed.

(** The scan of what follows does not look at the lines before it. *)
Lemma scan_congruence (before after after' : list string) :
  (forall in_objs sources,
      scan os fs icuroot mkin_path after in_objs sources
      = scan os fs icuroot mkin_path after' in_objs sources) ->
  forall in_objs sources,
    scan os fs icuroot mkin_path (before ++ after) in_objs sources
    = scan os fs icuroot mkin_path (before ++ after') in_objs sources.
Proof.
  intros Heq. induction before as [|raw before IH]; intros in_objs sources;
    [apply Heq|].
  simpl. destruct (String.eqb _ "OBJECTS").
  - destruct (line_sources _ _ _ _ _); simpl; [reflexivity | apply IH].
  - destruct (in_objs && _); [reflexivity|].
    destruct in_objs; [|apply IH].
    destruct (line_sources _ _ _ _ _); simpl; [reflexivity | apply IH].
Qed.

(** Once the list is open, nothing after its closing blank line is read. *)
Lemma scan_stops_at_blank (lines : list string) (closing : string)
  (rest rest' : list string) :
  blank closing = true ->
  forall (in_objs : bool) (sources : list string),
    in_objs || existsb starts_objects lines = true ->
    scan os fs icuroot mkin_path (lines ++ closing :: rest) in_objs sources
    = scan os fs icuroot mkin_path (lines ++ closing :: rest') in_objs sources.
Proof.
  intros Hb. induction lines as [|raw lines IH]; intros in_objs sources Hopen.
  - simpl in Hopen. rewrite orb_false_r in Hopen. subst in_objs.
    simpl app. now rewrite !(scan_close _ _ _ _ _ _ _ Hb).
  - change ((raw :: lines) ++ closing :: rest)%list
      with (raw :: (lines ++ closing :: rest))%list.
    change ((raw :: lines) ++ closing :: rest')%list
      with (raw :: (lines ++ closing :: rest'))%list.
    destruct (starts_objects raw) eqn:Ho.
    + rewrite !(scan_open _ _ _ _ _ _ _ _ Ho).
      destruct (line_sources _ _ _ _ _); simpl; [reflexivity|]. now apply IH.
    + simpl in Hopen. rewrite Ho in Hopen. simpl in Hopen.
      destruct in_objs.
      * destruct (blank raw) eqn:Hbr.
        -- now rewrite !(scan_close _ _ _ _ _ _ _ Hbr).
        -- rewrite !scan_continue by (unfold continuation; now rewrite Ho, Hbr).
           destruct (line_sources _ _ _ _ _); simpl; [reflexivity|]. now apply IH.
      * rewrite !(scan_not_open _ _ _ _ _ _ _ Ho). now apply IH.
Qed.

End ScanInvariants.

Lemma get_sources_with_lines (os : OsPath) (fs : FileSystem) (icuroot mkin_path : string)
  (lines : list string) :
  get_sources os (with_lines fs mkin_path lines) icuroot mkin_path
  = scan os fs icuroot mkin_path lines false [].
Proof.
  unfold get_sources, with_lines. cbn [readlines]. rewrite String.eqb_refl.
  reflexivity.
Qed.

(** X1.  Whatever the fragment holds, every path [get_sources] returns is a
    file on disk and is not on the ignore list. *)
Theorem get_sources_returns_existing_files
  (os : OsPath) (fs : FileSystem) (icuroot mkin_path : string) (sources : list string) :
  get_sources os fs icuroot mkin_path = ret sources ->
  forall src, In src sources ->
    isfile fs src = true /\ Py.mem src (source_ignore os icuroot) = false.
Proof.
  unfold get_sources. destruct (readlines fs mkin_path) as [lines|]; [|discriminate].
  intros H. apply Forall_forall.
  exact (scan_vetted os fs icuroot mkin_path lines false [] sources (Forall_nil _) H).
Qed.

Lemma get_sources_returns_existing_files_witness :
  isfile Sample.tree "icu/source/common/umath.c" = true
  /\ Py.mem "icu/source/common/umath.c" (source_ignore Posix.ospath "icu") = false.
Proof.
  refine (get_sources_returns_existing_files Posix.ospath Sample.tree
            "icu" "icu/source/common/Makefile.in"
            ["icu/source/common/errorcode.cpp"; "icu/source/common/putil.cpp";
             "icu/source/common/umath.c"; "icu/source/common/putil.cpp"]
            eq_refl "icu/source/common/umath.c" _).
  right; right; left; reflexivity.
Defined.

(** X2.  The lines before the first line that starts with [OBJECTS] are
    not looked at: dropping them from the file leaves the outcome of
    [get_sources], result or error, as it was. *)
Theorem get_sources_skips_preamble
  (os : OsPath) (fs : FileSystem) (icuroot mkin_path : string)
  (pre lines : list string) :
  readlines fs mkin_path = Some (pre ++ lines)%list ->
  forallb (fun raw => negb (starts_objects raw)) pre = true ->
  get_sources os fs icuroot mkin_path
  = get_sources os (with_lines fs mkin_path lines) icuroot mkin_path.
Proof.
  intros Hread Hpre.
  rewrite (get_sources_scan _ _ _ _ _ Hread), get_sources_with_lines.
  now apply scan_skip.
Qed.

Lemma get_sources_skips_preamble_witness :
  get_sources Posix.ospath Sample.tree "icu" "icu/source/common/Makefile.in"
  = get_sources Posix.ospath
      (with_lines Sample.tree "icu/source/common/Makefile.in" (tl Sample.common_mk))
      "icu" "icu/source/common/Makefile.in".
Proof.
  exact (get_sources_skips_preamble Posix.ospath Sample.tree
           "icu" "icu/source/common/Makefile.in"
           ["## Makefile.in for ICU - icuuc" ++ Sample.nl] (tl Sample.common_mk)
           eq_refl eq_refl).
Defined.

(** X3.  Once a line starting with [OBJECTS] has been met, [get_sources]
    reads nothing after the next blank line: replacing what follows that
    line leaves the outcome as it was. *)
Theorem get_sources_stops_at_blank_line
  (os : OsPath) (fs : FileSystem) (icuroot mkin_path : string)
  (lines : list string) (closing : string) (rest rest' : list string) :
  readlines fs mkin_path = Some (lines ++ closing :: rest)%list ->
  existsb starts_objects lines = true ->
  blank closing = true ->
  get_sources os fs icuroot mkin_path
  = get_sources os (with_lines fs mkin_path (lines ++ closing :: rest')%list)
      icuroot mkin_path.
Proof.
  intros Hread Hopen Hblank.
  rewrite (get_sources_scan _ _ _ _ _ Hread), get_sources_with_lines.
  now apply scan_stops_at_blank.
Qed.

Lemma get_sources_stops_at_blank_line_witness :
  get_sources Posix.ospath Sample.tree "icu" "icu/source/common/Makefile.in"
  = get_sources Posix.ospath
      (with_lines Sample.tree "icu/source/common/Makefile.in"
         (firstn 4 Sample.common_mk
          ++ [Sample.nl; ("OBJECTS = nosuch.o" ++ Sample.nl)%string])%list)
      "icu" "icu/source/common/Makefile.in".
Proof.
  exact (get_sources_stops_at_blank_line Posix.ospath Sample.tree
           "icu" "icu/source/common/Makefile.in"
           (firstn 4 Sample.common_mk) Sample.nl
           ["STATIC_OBJECTS = $(OBJECTS:.o=.$(STATIC_O))" ++ Sample.nl]
           ["OBJECTS = nosuch.o" ++ Sample.nl]
           eq_refl eq_refl eq_refl).
Defined.

(** ** Whitespace and the continuation marker *)

Lemma fields_snoc_separator (sep : ascii -> bool) (l : list ascii) (c : ascii) :
  sep c = true -> Py.fields sep (l ++ [c]) = (Py.fields sep l ++ [[]])%list.
Proof.
  intros Hc. induction l as [|a l IH]; simpl.
  - now rewrite Hc.
  - rewrite IH. destruct (sep a); [reflexivity|].
    destruct (fields_cons sep l) as (w & ws & ->). reflexivity.
Qed.

Lemma words_lstrip (l : list ascii) :
  filter Py.nonempty (Py.fields Py.is_space (Py.lstrip_chars l))
  = filter Py.nonempty (Py.fields Py.is_space l).
Proof.
  induction l as [|c l IH]; [reflexivity|].
  cbn [Py.lstrip_chars]. destruct (Py.is_space c) eqn:Hc; [|reflexivity].
  rewrite IH. cbn [Py.fields]. rewrite Hc. reflexivity.
Qed.

Lemma words_rstrip (r : list ascii) :
  filter Py.nonempty (Py.fields Py.is_space (rev (Py.lstrip_chars r)))
  = filter Py.nonempty (Py.fields Py.is_space (rev r)).
Proof.
  induction r as [|c r IH]; [reflexivity|].
  cbn [Py.lstrip_chars]. destruct (Py.is_space c) eqn:Hc; [|reflexivity].
  rewrite IH. cbn [rev]. rewrite (fields_snoc_separator _ _ _ Hc), filter_app.
  simpl. now rewrite app_nil_r.
Qed.

(** Splitting on whitespace does not see the whitespace [strip] removes. *)
Lemma split_strip (s : string) : Py.split (Py.strip s) = Py.split s.
Proof.
  unfold Py.split, Py.strip. rewrite chars_str, words_rstrip, rev_involutive.
  now rewrite words_lstrip.
Qed.

Lemma split_trailing_space (l : list ascii) :
  Py.split (Py.str (l ++ [" "%char])) = Py.split (Py.str l).
Proof.
  unfold Py.split. rewrite !chars_str.
  rewrite (fields_snoc_separator Py.is_space l " " eq_refl), filter_app.
  simpl. now rewrite app_nil_r.
Qed.

Section Marker.

Variable os : OsPath.
Variable fs : FileSystem.
Variable icuroot : string.
Variable mkin_path : string.

(** A line followed by a space and the continuation marker yields the
    sources of the line itself. *)
Lemma line_sources_marker (line : string) :
  line <> "" -> continued line = false ->
  line_sources os fs icuroot mkin_path (line ++ " \")
  = line_sources os fs icuroot mkin_path line.
Proof.
  intros Hne Hc.
  destruct (nonempty_snoc line Hne) as (l & c & Hl).
  assert (Hm : Py.chars (line ++ " \") = ((Py.chars line ++ [" "%char]) ++ ["\"%char])%list).
  { rewrite chars_append, <- app_assoc. reflexivity. }
  unfold line_sources.
  rewrite (getitem_last _ _ _ Hm), (slice_to_last _ _ _ Hm), (getitem_last _ _ _ Hl).
  cbn [bind ret]. cbv zeta.
  unfold continued in Hc. rewrite Hl, rev_app_distr in Hc. simpl in Hc. rewrite Hc.
  change (Ascii.eqb "\" "\") with true. cbv iota.
  rewrite split_strip, split_trailing_space, str_chars. reflexivity.
Qed.

End Marker.

(** X4.  The continuation marker is optional.  For a line that does not
    start with [OBJECTS], is not blank and does not end with the marker,
    writing it with a space and the marker at its end (before the line
    break) leaves the outcome of [get_sources] as it was. *)
Theorem get_sources_marker_optional
  (os : OsPath) (fs : FileSystem) (icuroot mkin_path : string)
  (before : list string) (raw marked : string) (after : list string) :
  readlines fs mkin_path = Some (before ++ raw :: after)%list ->
  starts_objects raw = false ->
  blank raw = false ->
  continued (Py.strip raw) = false ->
  Py.strip marked = Py.strip raw ++ " \" ->
  starts_objects marked = false ->
  get_sources os fs icuroot mkin_path
  = get_sources os (with_lines fs mkin_path (before ++ marked :: after)%list)
      icuroot mkin_path.
Proof.
  intros Hread Ho Hb Hc Hm Hom.
  rewrite (get_sources_scan _ _ _ _ _ Hread), get_sources_with_lines.
  apply scan_congruence. intros in_objs sources.
  assert (Hne : Py.strip raw <> "").
  { intros He. unfold blank in Hb. rewrite He in Hb. discriminate. }
  assert (Hbm : blank marked = false).
  { unfold blank. rewrite Hm. apply Z.eqb_neq. rewrite len_append.
    pose proof (len_nonneg (Py.strip raw)). change (Py.len " \") with 2. lia. }
  destruct in_objs.
  - rewrite !scan_continue by (unfold continuation; now rewrite ?Ho, ?Hb, ?Hom, ?Hbm).
    now rewrite Hm, line_sources_marker.
  - now rewrite (scan_not_open _ _ _ _ _ _ _ Ho), (scan_not_open _ _ _ _ _ _ _ Hom).
Qed.

Lemma get_sources_marker_optional_witness :
  get_sources Posix.ospath Sample.tree "icu" "icu/source/common/Makefile.in"
  = get_sources Posix.ospath
      (with_lines Sample.tree "icu/source/common/Makefile.in"
         (firstn 3 Sample.common_mk
          ++ ("putil.o \" ++ Sample.nl)%string :: skipn 4 Sample.common_mk)%list)
      "icu" "icu/source/common/Makefile.in".
Proof.
  exact (get_sources_marker_optional Posix.ospath Sample.tree
           "icu" "icu/source/common/Makefile.in"
           (firstn 3 Sample.common_mk) ("putil.o" ++ Sample.nl)
           ("putil.o \" ++ Sample.nl) (skipn 4 Sample.common_mk)
           eq_refl eq_refl eq_refl eq_refl eq_refl eq_refl).
Defined.

(** ** Further properties of the property file *)

Section PropsFacts.

Variable os : OsPath.
Variable fs : FileSystem.
Variable script_file : string.
Variable icu_sources_root : string.

Lemma prelude_value : prelude os script_file = ret (prelude_text os script_file).
Proof. reflexivity. Qed.

Lemma format_prop_block (dep kind body : string) :
  Py.format prop_template [dep; kind; body] = ret (prop_block dep kind body).
Proof. reflexivity. Qed.

(** One call of [add_props], by the outcome of its two lists. *)
Lemma add_props_run (deproot dep : string) (out : list string) :
  add_props os fs icu_sources_root deproot dep out
  = match get_sources os fs icu_sources_root
            (path_join os (path_join os deproot dep) "Makefile.in") with
    | inl e => (out, inl e)
    | inr sources =>
        let sources_prop :=
          prop_block (Py.capitalize dep) "Sources" (Py.join joiner sources) in
        match get_headers os fs icu_sources_root (path_join os deproot dep) with
        | inl e => ((out ++ [sources_prop])%list, inl e)
        | inr headers =>
            (((out ++ [sources_prop])
              ++ [prop_block (Py.capitalize dep) "Headers" (Py.join joiner headers)])%list,
             ret tt)
        end
    end.
Proof.
  unfold add_props, wbind, lift, write.
  destruct (get_sources _ _ _ _) as [e|sources]; [reflexivity|].
  rewrite format_prop_block.
  destruct (get_headers _ _ _ _) as [e|headers]; [reflexivity|].
  rewrite format_prop_block. reflexivity.
Qed.

(** A loop over components of one directory, by the outcome of their
    blocks. *)
Lemma for_each_add_props (deproot : string) (deps : list string) :
  forall out,
    match mapM (component_blocks os fs icu_sources_root) (map (pair deproot) deps) with
    | inr blocks =>
        for_each deps (add_props os fs icu_sources_root deproot) out
        = ((out ++ concat blocks)%list, ret tt)
    | inl e =>
        exists partial,
          for_each deps (add_props os fs icu_sources_root deproot) out
          = ((out ++ partial)%list, inl e)
          /\ Forall is_block partial
    end.
Proof.
  induction deps as [|dep deps IH]; intros out.
  - simpl. now rewrite app_nil_r.
  - cbn [map mapM for_each]. unfold wbind. rewrite add_props_run.
    unfold component_blocks at 1.
    destruct (get_sources _ _ _ _) as [e|sources]; cbn [bind].
    + exists []. rewrite app_nil_r. split; [reflexivity | constructor].
    + destruct (get_headers _ _ _ _) as [e|headers]; cbn [bind ret].
      * exists [prop_block (Py.capitalize dep) "Sources" (Py.join joiner sources)].
        split; [reflexivity|]. repeat constructor. now eexists _, _, _.
      * cbv zeta.
        specialize (IH ((out ++ [prop_block (Py.capitalize dep) "Sources"
                                   (Py.join joiner sources)])
                        ++ [prop_block (Py.capitalize dep) "Headers"
                              (Py.join joiner headers)])%list).
        destruct (mapM _ (map (pair deproot) deps)) as [e|blocks]; cbn [bind ret].
        -- destruct IH as (partial & -> & Hp).
           exists (prop_block (Py.capitalize dep) "Sources" (Py.join joiner sources)
                   :: prop_block (Py.capitalize dep) "Headers" (Py.join joiner headers)
                   :: partial).
           split; [now rewrite <- !app_assoc|].
           repeat constructor; [now eexists _, _, _ | now eexists _, _, _ | exact Hp].
        -- rewrite IH. cbn [concat]. now rewrite <- !app_assoc.
Qed.

Lemma component_blocks_are_blocks (cs : list (string * string)) :
  forall blocks,
    mapM (component_blocks os fs icu_sources_root) cs = ret blocks ->
    Forall is_block (concat blocks).
Proof.
  induction cs as [|[deproot dep] cs IH]; intros blocks H.
  - injection H as <-. constructor.
  - cbn [mapM] in H. unfold component_blocks at 1 in H.
    destruct (get_sources _ _ _ _) as [e|sources]; [discriminate|]. cbn [bind] in H.
    destruct (get_headers _ _ _ _) as [e|headers]; [discriminate|]. cbn [bind ret] in H.
    destruct (mapM _ cs) as [e|bs]; [discriminate|]. cbn [bind ret] in H.
    injection H as <-. cbn [concat app].
    repeat constructor; [now eexists _, _, _ | now eexists _, _, _ | now apply IH].
Qed.

Lemma wbind_lift_ret {A B} (a : A) (k : A -> writer B) (out : list string) :
  wbind (lift (ret a)) k out = k a out.
Proof. reflexivity. Qed.

Lemma wbind_write {B} (s : string) (k : unit -> writer B) (out : list string) :
  wbind (write s) k out = k tt (out ++ [s])%list.
Proof. reflexivity. Qed.

Lemma wbind_run {A B} (m : writer A) (k : A -> writer B) (out out' : list string) (a : A) :
  m out = (out', ret a) -> wbind m k out = k a out'.
Proof. unfold wbind. now intros ->. Qed.

Lemma wbind_fail {A B} (m : writer A) (k : A -> writer B) (out out' : list string)
  (e : exn) :
  m out = (out', inl e) -> wbind m k out = (out', inl e).
Proof. unfold wbind. now intros ->. Qed.

Lemma components_split :
  components os icu_sources_root
  = (map (pair (path_join os icu_sources_root "source")) ["common"; "i18n"; "stubdata"]
     ++ map (pair (path_join os (path_join os icu_sources_root "source") "tools"))
          ["toolutil"; "genccode"])%list.
Proof. reflexivity. Qed.

(** The whole of [create_msvc_props], by whether the file can be opened
    and by the outcome of the blocks of the five components. *)
Lemma create_msvc_props_run (chakra_icu_root version : string) :
  if writable fs (path_join os chakra_icu_root "Chakra.ICU.props") then
    match mapM (component_blocks os fs icu_sources_root)
            (components os icu_sources_root) with
    | inr blocks =>
        create_msvc_props os fs script_file chakra_icu_root icu_sources_root version
        = (path_join os chakra_icu_root "Chakra.ICU.props",
           ((prelude_text os script_file :: concat blocks
             ++ props_tail os icu_sources_root version)%list, ret tt))
    | inl e =>
        exists partial,
          create_msvc_props os fs script_file chakra_icu_root icu_sources_root version
          = (path_join os chakra_icu_root "Chakra.ICU.props",
             (prelude_text os script_file :: partial, inl e))
          /\ Forall is_block partial
    end
  else
    create_msvc_props os fs script_file chakra_icu_root icu_sources_root version
    = (path_join os chakra_icu_root "Chakra.ICU.props",
       ([], inl (IOError (path_join os chakra_icu_root "Chakra.ICU.props")))).
Proof.
  unfold create_msvc_props, open_for_writing.
  rewrite prelude_value, wbind_lift_ret.
  destruct (writable fs _); [|reflexivity].
  rewrite components_split, mapM_app.
  rewrite wbind_lift_ret, wbind_write. cbn [app]. cbv zeta.
  pose proof (for_each_add_props (path_join os icu_sources_root "source")
                ["common"; "i18n"; "stubdata"] [prelude_text os script_file]) as H1.
  destruct (mapM _ (map (pair (path_join os icu_sources_root "source")) _))
    as [e|blocks1] eqn:Hb1; cbn [bind].
  - destruct H1 as (partial & H1 & Hp). rewrite (wbind_fail _ _ _ _ _ H1).
    now exists partial.
  - rewrite (wbind_run _ _ _ _ _ H1).
    pose proof (for_each_add_props
                  (path_join os (path_join os icu_sources_root "source") "tools")
                  ["toolutil"; "genccode"]
                  ([prelude_text os script_file] ++ concat blocks1)%list) as H2.
    destruct (mapM _ (map (pair (path_join os (path_join os icu_sources_root "source")
                                   "tools")) _)) as [e|blocks2]; cbn [bind ret].
    + destruct H2 as (partial & H2 & Hp). rewrite (wbind_fail _ _ _ _ _ H2).
      exists (concat blocks1 ++ partial)%list.
      split; [now rewrite <- app_assoc|].
      apply Forall_app. split; [|exact Hp].
      exact (component_blocks_are_blocks _ _ Hb1).
    + rewrite (wbind_run _ _ _ _ _ H2).
      rewrite version_parts_major, wbind_lift_ret.
      rewrite format_version_field, wbind_lift_ret, wbind_write.
      rewrite version_parts_minor, wbind_lift_ret.
      rewrite format_version_field, wbind_lift_ret, wbind_write.
      rewrite format_version_field, wbind_lift_ret, wbind_write.
      rewrite format_prop_block, wbind_lift_ret, wbind_write.
      unfold write, props_tail. cbn [map]. f_equal. f_equal.
      rewrite concat_app. cbn [app]. now rewrite <- !app_assoc.
Qed.

End PropsFacts.

Lemma block_not_conclusion (s : string) : is_block s -> s <> conclusion.
Proof. intros (dep & kind & body & ->). discriminate. Qed.

Lemma component_error_origin (os : OsPath) (fs : FileSystem) (icu_sources_root : string)
  (cs : list (string * string)) (e : exn) :
  mapM (component_blocks os fs icu_sources_root) cs = inl e ->
  exists deproot dep,
    In (deproot, dep) cs
    /\ (get_sources os fs icu_sources_root
          (path_join os (path_join os deproot dep) "Makefile.in") = inl e
        \/ get_headers os fs icu_sources_root (path_join os deproot dep) = inl e).
Proof.
  induction cs as [|[deproot dep] cs IH]; [discriminate|].
  cbn [mapM]. unfold component_blocks at 1.
  destruct (get_sources _ _ _ _) as [e1|sources] eqn:Hs; cbn [bind].
  - intros H. injection H as <-. exists deproot, dep. split; [now left | now left].
  - destruct (get_headers _ _ _ _) as [e1|headers] eqn:Hh; cbn [bind ret].
    + intros H. injection H as <-. exists deproot, dep. split; [now left | now right].
    + destruct (mapM _ cs) as [e1|bs]; cbn [bind ret]; [|discriminate].
      intros H. injection H as <-. destruct (IH eq_refl) as (r & d & Hin & Hor).
      exists r, d. split; [now right | exact Hor].
Qed.

(** X5.  When [Chakra.ICU.props] under the given directory can be opened
    for writing and the source list and the header list of all five
    components can be made, [create_msvc_props] completes, and the file
    holds the prelude, then the Sources block and the Headers block of
    common, i18n, stubdata, toolutil and genccode in that order, then the
    version fields, the source directory, the include directories and the
    closing block. *)
Theorem create_msvc_props_complete
  (os : OsPath) (fs : FileSystem)
  (script_file chakra_icu_root icu_sources_root version : string)
  (blocks : list (list string)) :
  writable fs (path_join os chakra_icu_root "Chakra.ICU.props") = true ->
  mapM (component_blocks os fs icu_sources_root) (components os icu_sources_root)
  = ret blocks ->
  create_msvc_props os fs script_file chakra_icu_root icu_sources_root version
  = (path_join os chakra_icu_root "Chakra.ICU.props",
     ((prelude_text os script_file :: concat blocks
       ++ props_tail os icu_sources_root version)%list, ret tt)).
Proof.
  intros Hw H.
  pose proof (create_msvc_props_run os fs script_file icu_sources_root
                chakra_icu_root version) as Hrun.
  now rewrite Hw, H in Hrun.
Qed.

Lemma create_msvc_props_complete_witness :
  fst (create_msvc_props Posix.ospath Sample.tree "tools/configure_icu.py"
         "deps/Chakra.ICU" "icu" "61.1")
  = "deps/Chakra.ICU/Chakra.ICU.props"
  /\ List.length (fst (snd (create_msvc_props Posix.ospath Sample.tree
                              "tools/configure_icu.py" "deps/Chakra.ICU" "icu" "61.1")))
     = 16%nat
  /\ snd (snd (create_msvc_props Posix.ospath Sample.tree "tools/configure_icu.py"
                 "deps/Chakra.ICU" "icu" "61.1"))
     = ret tt.
Proof.
  assert (Hb : exists blocks,
             mapM (component_blocks Posix.ospath Sample.tree "icu")
               (components Posix.ospath "icu") = ret blocks
             /\ List.length (concat blocks) = 10%nat).
  { eexists. split; [vm_compute; reflexivity | reflexivity]. }
  destruct Hb as (blocks & Hb & Hlen).
  rewrite (create_msvc_props_complete Posix.ospath Sample.tree "tools/configure_icu.py"
             "deps/Chakra.ICU" "icu" "61.1" blocks eq_refl Hb).
  cbn [fst snd]. split; [reflexivity|]. split; [|reflexivity].
  cbn [List.length]. rewrite length_app, Hlen. reflexivity.
Defined.

(** X6.  [create_msvc_props] fails in two ways only.  Either
    [Chakra.ICU.props] cannot be opened for writing: the error is the
    [IOError] of that file and nothing is written.  Or the file was opened
    and the error is one that [get_sources] or [get_headers] raised for one
    of the five components: the file left behind then starts with the
    prelude and lacks the closing block. *)
Theorem create_msvc_props_failure
  (os : OsPath) (fs : FileSystem)
  (script_file chakra_icu_root icu_sources_root version : string) (e : exn) :
  snd (snd (create_msvc_props os fs script_file chakra_icu_root icu_sources_root version))
  = inl e ->
  (writable fs (path_join os chakra_icu_root "Chakra.ICU.props") = false
   /\ e = IOError (path_join os chakra_icu_root "Chakra.ICU.props")
   /\ fst (snd (create_msvc_props os fs script_file chakra_icu_root
                  icu_sources_root version)) = [])
  \/ (writable fs (path_join os chakra_icu_root "Chakra.ICU.props") = true
      /\ (exists deproot dep,
             In (deproot, dep) (components os icu_sources_root)
             /\ (get_sources os fs icu_sources_root
                   (path_join os (path_join os deproot dep) "Makefile.in") = inl e
                 \/ get_headers os fs icu_sources_root (path_join os deproot dep)
                    = inl e))
      /\ (exists partial,
             fst (snd (create_msvc_props os fs script_file chakra_icu_root
                         icu_sources_root version))
             = prelude_text os script_file :: partial)
      /\ ~ In conclusion
             (fst (snd (create_msvc_props os fs script_file chakra_icu_root
                          icu_sources_root version)))).
Proof.
  intros H.
  pose proof (create_msvc_props_run os fs script_file icu_sources_root
                chakra_icu_root version) as Hrun.
  destruct (writable fs _) eqn:Hw.
  - right. split; [reflexivity|].
    destruct (mapM _ _) as [e'|blocks] eqn:Hm.
    + destruct Hrun as (partial & Hrun & Hp). rewrite Hrun in H |- *.
      cbn [fst snd] in H |- *. injection H as ->.
      split; [exact (component_error_origin _ _ _ _ _ Hm)|].
      split; [now exists partial|].
      intros [Hc|Hc]; [discriminate Hc|].
      rewrite Forall_forall in Hp. exact (block_not_conclusion _ (Hp _ Hc) eq_refl).
    + rewrite Hrun in H. discriminate H.
  - left. rewrite Hrun in H |- *. cbn [fst snd] in H |- *. injection H as <-.
    now repeat split.
Qed.

Lemma create_msvc_props_failure_witness :
  (snd (snd (create_msvc_props Posix.ospath partial_tree "tools/configure_icu.py"
               "deps/Chakra.ICU" "icu" "61.1"))
   = inl (IOError "icu/source/tools/genccode/Makefile.in")
   /\ List.length (fst (snd (create_msvc_props Posix.ospath partial_tree
                               "tools/configure_icu.py" "deps/Chakra.ICU" "icu" "61.1")))
      = 9%nat
   /\ ~ In conclusion
          (fst (snd (create_msvc_props Posix.ospath partial_tree "tools/configure_icu.py"
                       "deps/Chakra.ICU" "icu" "61.1"))))
  /\ snd (create_msvc_props Posix.ospath Sample.tree "tools/configure_icu.py"
            "deps/Missing" "icu" "61.1")
     = ([], inl (IOError "deps/Missing/Chakra.ICU.props")).
Proof.
  split.
  - split; [vm_compute; reflexivity|]. split; [vm_compute; reflexivity|].
    destruct (create_msvc_props_failure Posix.ospath partial_tree
                "tools/configure_icu.py" "deps/Chakra.ICU" "icu" "61.1"
                (IOError "icu/source/tools/genccode/Makefile.in") eq_refl)
      as [(Hw & _)|(_ & _ & _ & Hno)]; [discriminate Hw | exact Hno].
  - destruct (create_msvc_props_failure Posix.ospath Sample.tree
                "tools/configure_icu.py" "deps/Missing" "icu" "61.1"
                (IOError "deps/Missing/Chakra.ICU.props") eq_refl)
      as [(_ & _ & Hnone)|(Hw & _)]; [|discriminate Hw].
    vm_compute. reflexivity.
Defined.

Lemma fields_split (sep : ascii -> bool) (l1 l2 : list ascii) (c : ascii) :
  forallb (fun a => negb (sep a)) l1 = true -> sep c = true ->
  Py.fields sep (l1 ++ c :: l2) = l1 :: Py.fields sep l2.
Proof.
  intros H1 Hc. induction l1 as [|a l1 IH]; simpl.
  - now rewrite Hc.
  - simpl in H1. apply andb_true_iff in H1 as [Ha H1]. apply negb_true_iff in Ha.
    now rewrite Ha, (IH H1).
Qed.

Lemma split_on_dotted (a r : string) :
  no_dot a = true -> Py.split_on "." (a ++ "." ++ r) = a :: Py.split_on "." r.
Proof.
  intros Ha. unfold Py.split_on.
  rewrite chars_append.
  change (Py.chars ("." ++ r)) with ("."%char :: Py.chars r).
  rewrite (fields_split (Ascii.eqb ".") (Py.chars a) (Py.chars r) "." Ha eq_refl).
  cbn [map]. now rewrite str_chars.
Qed.

(** X8.  For a version [major.minor] or [major.minor.more], a completed
    run writes [major] into the IcuVersionMajor field and [minor] into the
    IcuVersionMinor field: what follows a second dot is not used. *)
Theorem create_msvc_props_dotted_version
  (os : OsPath) (fs : FileSystem)
  (script_file chakra_icu_root icu_sources_root : string)
  (major minor more : string) (written : list string) :
  no_dot major = true ->
  no_dot minor = true ->
  more = "" \/ (exists patch, more = "." ++ patch) ->
  snd (create_msvc_props os fs script_file chakra_icu_root icu_sources_root
         (major ++ "." ++ minor ++ more))
  = (written, ret tt) ->
  In (version_field "VersionMajor" major) written
  /\ In (version_field "VersionMinor" minor) written.
Proof.
  intros Hmaj Hmin Hmore H.
  assert (Hparts : exists tail,
             Py.split_on "." (major ++ "." ++ minor ++ more) = major :: minor :: tail).
  { rewrite (split_on_dotted _ _ Hmaj). destruct Hmore as [->|(patch & ->)].
    - rewrite append_empty_r, (split_on_no_separator "." minor Hmin). now exists [].
    - rewrite (split_on_dotted _ _ Hmin). now eexists. }
  destruct Hparts as (tail & Hparts).
  remember (major ++ "." ++ minor ++ more) as version eqn:Hv. clear Hv.
  pose proof (create_msvc_props_run os fs script_file icu_sources_root
                chakra_icu_root version) as Hrun.
  destruct (writable fs _); [|rewrite Hrun in H; discriminate H].
  destruct (mapM _ _) as [e|blocks].
  - destruct Hrun as (partial & Hrun & _). rewrite Hrun in H. discriminate H.
  - rewrite Hrun in H. cbn [snd] in H. injection H as <-.
    unfold props_tail, version_major, version_minor. rewrite Hparts. cbn [hd nth].
    split; right; apply in_or_app; right; [now left | now right; left].
Qed.

Lemma create_msvc_props_dotted_version_witness :
  In "
    <IcuVersionMajor>61</IcuVersionMajor>"
     (fst (snd (create_msvc_props Posix.ospath Sample.tree "tools/configure_icu.py"
                  "deps/Chakra.ICU" "icu" "61.1.2")))
  /\ In "
    <IcuVersionMinor>1</IcuVersionMinor>"
       (fst (snd (create_msvc_props Posix.ospath Sample.tree "tools/configure_icu.py"
                    "deps/Chakra.ICU" "icu" "61.1.2"))).
Proof.
  refine (create_msvc_props_dotted_version Posix.ospath Sample.tree
            "tools/configure_icu.py" "deps/Chakra.ICU" "icu" "61" "1" ".2" _
            eq_refl eq_refl (or_intror (ex_intro _ "2" eq_refl)) _).
  vm_compute. reflexivity.
Defined.

(** ** Further properties of the download *)

Section DownloadOutcome.

Variable os : OsPath.
Variable host : Host.
Variable icuroot : string.
Variable version : string.
Variable yes : bool.

Lemma consent_refused :
  consent host yes = false ->
  (if negb yes then
     if negb (String.eqb (raw_input host "Do you agree to these terms? [Y/n] ") "")
        && negb (String.eqb (raw_input host "Do you agree to these terms? [Y/n] ") "y")
        && negb (String.eqb (raw_input host "Do you agree to these terms? [Y/n] ") "Y")
     then raise (SystemExit 0)
     else ret tt
   else ret tt) = raise (SystemExit 0).
Proof.
  unfold consent. destruct yes; simpl; [discriminate|].
  destruct (String.eqb _ ""), (String.eqb _ "y"), (String.eqb _ "Y"); simpl;
    intros H; first [reflexivity | discriminate].
Qed.

(** Every run of [download_icu], step by step. *)
Lemma download_icu_outcome :
  download_icu os host icuroot version yes
  = if negb (consent host yes) then raise (SystemExit 0)
    else
      match urlretrieve host (archive_url_of host version) with
      | None => raise (IOError (archive_url_of host version))
      | Some archive_path =>
          match read_binary host archive_path with
          | None => raise (IOError archive_path)
          | Some download =>
              match urlopen_read host (md5_url_of version) with
              | None => raise (IOError (md5_url_of version))
              | Some manifest =>
                  if negb (Py.is_ascii manifest) then raise UnicodeDecodeError
                  else
                    match relevant_lines host version manifest with
                    | [line] =>
                        if String.eqb (first_token line) (md5_hexdigest host download)
                        then ret archive_path
                        else raise format_error
                    | _ => raise format_error
                    end
              end
          end
      end.
Proof.
  unfold download_icu.
  rewrite format_archive_file. cbn [bind ret].
  rewrite format_md5_file. cbn [bind ret].
  rewrite format_archive_url. cbn [bind ret].
  rewrite format_md5_url. cbn [bind ret].
  destruct (format_license (archive_url_of host version) (repeat_string "-" 80))
    as (text & ->). cbn [bind ret].
  destruct (consent host yes) eqn:Hc; cbn [negb].
  - rewrite (consent_given _ _ Hc). cbn [bind ret].
    destruct (urlretrieve host _) as [archive_path|]; [|reflexivity]. cbn [bind ret io].
    destruct (read_binary host _) as [download|]; [|reflexivity]. cbn [bind ret io].
    destruct (urlopen_read host _) as [manifest|]; [|reflexivity]. cbn [bind ret io].
    unfold Py.decode_ascii. destruct (Py.is_ascii manifest); [|reflexivity].
    cbn [bind ret negb]. fold (relevant_lines host version manifest).
    destruct (relevant_lines host version manifest) as [|line [|line' more]].
    + reflexivity.
    + cbn [List.length negb Z.of_nat Pos.of_succ_nat Z.eqb Pos.eqb list_getitem nth_error
           bind ret].
      rewrite split_on_first. cbn [bind ret]. fold (first_token line).
      destruct (String.eqb _ _); reflexivity.
    + assert (Hlen : (Z.of_nat (List.length (line :: line' :: more)) =? 1) = false).
      { apply Z.eqb_neq. cbn [List.length]. lia. }
      rewrite Hlen. reflexivity.
  - rewrite (consent_refused Hc). reflexivity.
Qed.

End DownloadOutcome.

(** X9.  [download_icu] returns a path only for a verified download: the
    user has agreed, the path is where the archive was retrieved to, the
    manifest has exactly one line ending with the archive name, and the
    first token of that line is the digest of the bytes at that path. *)
Theorem download_icu_returns_verified
  (os : OsPath) (host : Host) (icuroot version : string) (yes : bool) (path : string) :
  download_icu os host icuroot version yes = ret path ->
  consent host yes = true
  /\ urlretrieve host (archive_url_of host version) = Some path
  /\ exists download manifest line,
       read_binary host path = Some download
       /\ urlopen_read host (md5_url_of version) = Some manifest
       /\ relevant_lines host version manifest = [line]
       /\ first_token line = md5_hexdigest host download.
Proof.
  rewrite download_icu_outcome.
  destruct (consent host yes); cbn [negb]; [|discriminate].
  destruct (urlretrieve host _) as [archive_path|]; [|discriminate].
  destruct (read_binary host archive_path) as [download|] eqn:Hread; [|discriminate].
  destruct (urlopen_read host _) as [manifest|] eqn:Hopen; [|discriminate].
  destruct (Py.is_ascii manifest); cbn [negb]; [|discriminate].
  destruct (relevant_lines host version manifest) as [|line [|line' more]] eqn:Hrel;
    [discriminate| |discriminate].
  destruct (String.eqb_spec (first_token line) (md5_hexdigest host download))
    as [Heq|_]; [|discriminate].
  intros H. injection H as <-. split; [reflexivity|]. split; [reflexivity|].
  exists download, manifest, line. repeat split; assumption.
Qed.

Lemma download_icu_returns_verified_witness :
  urlretrieve (Sample.host Sample.good_manifest)
    (archive_url_of (Sample.host Sample.good_manifest) "61.1")
  = Some "/tmp/tmpXq3vWk"
  /\ exists download manifest line,
       read_binary (Sample.host Sample.good_manifest) "/tmp/tmpXq3vWk" = Some download
       /\ urlopen_read (Sample.host Sample.good_manifest) (md5_url_of "61.1") = Some manifest
       /\ relevant_lines (Sample.host Sample.good_manifest) "61.1" manifest = [line]
       /\ first_token line = md5_hexdigest (Sample.host Sample.good_manifest) download.
Proof.
  exact (proj2 (download_icu_returns_verified Posix.ospath
                  (Sample.host Sample.good_manifest) "deps/Chakra.ICU" "61.1" true
                  "/tmp/tmpXq3vWk" eq_refl)).
Defined.

(** X10.  Unless [-y] is given or the answer at the prompt is empty, [y]
    or [Y], [download_icu] exits with status 0, whatever the network would
    have served. *)
Theorem download_icu_declined_exits
  (os : OsPath) (host : Host) (icuroot version : string) (yes : bool) :
  consent host yes = false ->
  download_icu os host icuroot version yes = raise (SystemExit 0).
Proof. intros H. now rewrite download_icu_outcome, H. Qed.

Lemma download_icu_declined_exits_witness :
  download_icu Posix.ospath (Sample.host Sample.good_manifest)
    "deps/Chakra.ICU" "61.1" false
  = raise (SystemExit 0).
Proof.
  exact (download_icu_declined_exits Posix.ospath (Sample.host Sample.good_manifest)
           "deps/Chakra.ICU" "61.1" false eq_refl).
Defined.

(** X11.  The manifest lines [download_icu] takes for the archive are
    exactly the lines of the manifest that end with the archive name; the
    slice with a negative start on a line shorter than the name selects
    nothing. *)
Theorem relevant_lines_are_suffix_matches
  (host : Host) (version manifest line : string) :
  In line (relevant_lines host version manifest)
  <-> In line (Py.split_on "010" manifest)
      /\ exists before, line = before ++ archive_file_of host version.
Proof.
  unfold relevant_lines. rewrite filter_In, is_relevant_suffix. reflexivity.
Qed.

(** X12.  With consent given and both transfers done, a manifest holding a
    byte outside ASCII makes [download_icu] raise [UnicodeDecodeError],
    before any line is looked at. *)
Theorem download_icu_manifest_not_ascii
  (os : OsPath) (host : Host) (icuroot version : string) (yes : bool)
  (archive_path download manifest : string) :
  consent host yes = true ->
  urlretrieve host (archive_url_of host version) = Some archive_path ->
  read_binary host archive_path = Some download ->
  urlopen_read host (md5_url_of version) = Some manifest ->
  Py.is_ascii manifest = false ->
  download_icu os host icuroot version yes = raise UnicodeDecodeError.
Proof.
  intros Hc Hget Hread Hopen Hascii.
  now rewrite download_icu_outcome, Hc, Hget, Hread, Hopen, Hascii.
Qed.

Lemma download_icu_manifest_not_ascii_witness :
  download_icu Posix.ospath (Sample.host latin1_manifest) "deps/Chakra.ICU" "61.1" true
  = raise UnicodeDecodeError.
Proof.
  exact (download_icu_manifest_not_ascii Posix.ospath (Sample.host latin1_manifest)
           "deps/Chakra.ICU" "61.1" true "/tmp/tmpXq3vWk" "ICU 61.1 SOURCE ARCHIVE"
           latin1_manifest eq_refl eq_refl eq_refl eq_refl eq_refl).
Defined.

Lemma relevant_lines_are_suffix_matches_witness :
  In "89852f67b65704c507c720c131deea63  icu4c-61_1-src.tgz"
     (relevant_lines (Sample.host Sample.good_manifest) "61.1" Sample.good_manifest).
Proof.
  apply (proj2 (relevant_lines_are_suffix_matches (Sample.host Sample.good_manifest)
                  "61.1" Sample.good_manifest
                  "89852f67b65704c507c720c131deea63  icu4c-61_1-src.tgz")).
  split.
  - vm_compute. left. reflexivity.
  - exists "89852f67b65704c507c720c131deea63  ". reflexivity.
Defined.

(** ** The errors of the source extractor *)

Section ScanErrors.

Variable os : OsPath.
Variable fs : FileSystem.
Variable icuroot : string.
Variable mkin_path : string.






End ScanErrors.


